(** * AlphaFold-api: the FastAPI wrapper of [main.py], embedded and verified

    The development follows [main.py] top to bottom: the constants, the
    [PredictedStructure] model, the bounded-retry helper [_get] and the two
    route handlers [get_prediction] and [search_by_gene].

    Python values that come out of [r.json()] are the inductive [json];
    a Python [dict] is a [gmap string json], a Python [float] a binary64
    primitive float, a Python [int] a [Z].  The handlers are sequential
    coroutines: they are written in a state-and-exception monad whose state
    records every outbound [client.get] and every [asyncio.sleep]. *)

From Stdlib Require Import ZArith String List Lia.
From Stdlib Require Import Floats.PrimFloat Numbers.Cyclic.Int63.Uint63.
From stdpp Require Import gmap strings list fin_maps.

Set Warnings "-register-all".
Set Default Proof Using "Type".
Local Open Scope Z_scope.

(** ** Python values *)

Inductive json :=
| JNull                              (* None *)
| JBool (b : bool)
| JInt (z : Z)
| JFloat (f : float)
| JStr (s : string)
| JArr (l : list json)
| JObj (m : gmap string json).

(** Truth value of an object, as [if not x] tests it. *)
Definition truthy (v : json) : bool :=
  match v with
  | JNull => false
  | JBool b => b
  | JInt z => negb (z =? 0)
  | JFloat f => negb (PrimFloat.eqb f 0)
  | JStr s => negb (String.length s =? 0)%nat
  | JArr l => negb (length l =? 0)%nat
  | JObj m => negb (size m =? 0)%nat
  end.

(** ** Exceptions and results *)

Inductive exn :=
| HTTPError (msg : string)           (* httpx.HTTPError and its subclasses; [msg] is str(exc) *)
| ClientError (msg : string)         (* an httpx exception outside HTTPError, e.g. InvalidURL *)
| HTTPException (status_code : Z) (detail : string)   (* fastapi.HTTPException *)
| ValidationError                    (* pydantic.ValidationError *)
| JSONDecodeError                    (* raised by r.json() on an undecodable body *)
| KeyError
| IndexError
| TypeError
| AttributeError.

Inductive result (A : Type) :=
| Ok (a : A)
| Raise (e : exn).
Arguments Ok {A} a.
Arguments Raise {A} e.

Definition rbind {A B} (r : result A) (k : A -> result B) : result B :=
  match r with
  | Ok a => k a
  | Raise e => Raise e
  end.

Notation "x <~ r ;; k" := (rbind r (fun x => k))
  (at level 100, r at next level, right associativity).

(** ** The outside world *)

(** An httpx response, as far as the code looks at it: the status code, the
    text of the [HTTPStatusError] that [raise_for_status] builds for it, and
    the decoded body ([None] when the body is not JSON). *)
Record response := {
  status_code : Z;
  status_error : string;
  body : option json
}.

Inductive outcome :=
| Responded (r : response)
| HTTPErrorRaised (msg : string)
| OtherRaised (msg : string).

Definition kwargs := list (string * json).

Inductive event :=
| EvGet (url : string) (params : kwargs)
| EvSleep (secs : float).

(** [served] counts the calls of [client.get] so far, [trace] lists what
    the coroutine did, oldest first. *)
Record world := {
  served : nat;
  trace : list event
}.

Inductive HttpUrl := Url (text : string).

(** What the handlers get from outside the repository: the upstream
    services (the answer to the n-th [client.get]), pydantic's URL parser,
    pydantic's lax coercions of an input that is not already of the field's
    type, and [str()] of an object that is not a string. *)
Class Externals := {
  upstream : nat -> string -> kwargs -> outcome;
  http_url : string -> option HttpUrl;
  lax_int : json -> option Z;
  lax_float : json -> option float;
  py_str : json -> string
}.

(** ** The coroutine monad *)

Definition M (A : Type) : Type := world -> result A * world.

Definition ret {A} (a : A) : M A := fun w => (Ok a, w).
Definition raise {A} (e : exn) : M A := fun w => (Raise e, w).
Definition bind {A B} (c : M A) (k : A -> M B) : M B :=
  fun w => match c w with
           | (Ok a, w') => k a w'
           | (Raise e, w') => (Raise e, w')
           end.
Definition lift {A} (r : result A) : M A := fun w => (r, w).

Notation "x <- c ;; k" := (bind c (fun x => k))
  (at level 100, c at next level, right associativity).

(** [try: body except httpx.HTTPError as exc: handler exc]; the handler
    gets the caught exception by its text, str(exc). *)
Definition except_HTTPError {A} (body : M A) (handler : string -> M A) : M A :=
  fun w => match body w with
           | (Raise (HTTPError msg), w') => handler msg w'
           | other => other
           end.

(** ** Constants *)

Definition ALPHAFOLD_BASE : string := "https://alphafold.ebi.ac.uk".
Definition UNIPROT_SEARCH_URL : string := "https://rest.uniprot.org/uniprotkb/search".
Definition RETRIES : Z := 2.

(** ** Models *)

Record PredictedStructure := {
  entryId : string;
  uniprotAccession : string;
  uniprotId : option string;
  organismScientificName : option string;
  uniprotStart : option Z;
  uniprotEnd : option Z;
  modelCreatedDate : option string;
  pdbUrl : option HttpUrl;
  cifUrl : option HttpUrl;
  paeImageUrl : option HttpUrl;
  pLDDT : option float
}.

Section Handlers.
Context `{Externals}.

(** Field validators of the model, per annotated type. *)
Definition val_str (v : json) : option string :=
  match v with
  | JStr s => Some s
  | _ => None
  end.

Definition val_int (v : json) : option Z :=
  match v with
  | JInt z => Some z
  | _ => lax_int v
  end.

Definition val_float (v : json) : option float :=
  match v with
  | JFloat f => Some f
  | _ => lax_float v
  end.

Definition val_url (v : json) : option HttpUrl :=
  match v with
  | JStr s => http_url s
  | _ => None
  end.

(** A required field: the key must be there and validate. *)
Definition required {A} (val : json -> option A) (m : gmap string json) (k : string)
  : result A :=
  match m !! k with
  | Some v => match val v with
              | Some a => Ok a
              | None => Raise ValidationError
              end
  | None => Raise ValidationError
  end.

(** [Optional[T] = None]: a missing key and an explicit None both give
    None, any other input goes through the validator of T. *)
Definition optional {A} (val : json -> option A) (m : gmap string json) (k : string)
  : result (option A) :=
  match m !! k with
  | None => Ok None
  | Some JNull => Ok None
  | Some v => match val v with
              | Some a => Ok (Some a)
              | None => Raise ValidationError
              end
  end.

(** [PredictedStructure.model_validate(item)]; keys the model does not
    declare are ignored. *)
Definition model_validate (item : json) : result PredictedStructure :=
  match item with
  | JObj m =>
      f1 <~ required val_str m "entryId" ;;
      f2 <~ required val_str m "uniprotAccession" ;;
      f3 <~ optional val_str m "uniprotId" ;;
      f4 <~ optional val_str m "organismScientificName" ;;
      f5 <~ optional val_int m "uniprotStart" ;;
      f6 <~ optional val_int m "uniprotEnd" ;;
      f7 <~ optional val_str m "modelCreatedDate" ;;
      f8 <~ optional val_url m "pdbUrl" ;;
      f9 <~ optional val_url m "cifUrl" ;;
      f10 <~ optional val_url m "paeImageUrl" ;;
      f11 <~ optional val_float m "pLDDT" ;;
      Ok {| entryId := f1; uniprotAccession := f2; uniprotId := f3;
            organismScientificName := f4; uniprotStart := f5; uniprotEnd := f6;
            modelCreatedDate := f7; pdbUrl := f8; cifUrl := f9;
            paeImageUrl := f10; pLDDT := f11 |}
  | _ => Raise ValidationError
  end.

(** ** Helpers *)

(** [await client.get(url, params=params)] *)
Definition client_get (url : string) (params : kwargs) : M response :=
  fun w =>
    let w' := {| served := S (served w); trace := trace w ++ [EvGet url params] |} in
    match upstream (served w) url params with
    | Responded r => (Ok r, w')
    | HTTPErrorRaised msg => (Raise (HTTPError msg), w')
    | OtherRaised msg => (Raise (ClientError msg), w')
    end.

(** [await asyncio.sleep(secs)] *)
Definition sleep (secs : float) : M unit :=
  fun w => (Ok tt, {| served := served w; trace := trace w ++ [EvSleep secs] |}).

Definition is_success (r : response) : bool :=
  (200 <=? status_code r) && (status_code r <=? 299).

(** [r.raise_for_status()] *)
Definition raise_for_status (r : response) : M unit :=
  if is_success r then ret tt else raise (HTTPError (status_error r)).

(** [r.json()] *)
Definition json_of (r : response) : M json :=
  match body r with
  | Some j => ret j
  | None => raise JSONDecodeError
  end.

(** What [_get] returns: the decoded body, or the response itself. *)
Definition fetched (expect_json : bool) : Type :=
  if expect_json then json else response.

(** [r.json() if expect_json else r] *)
Definition payload (expect_json : bool) (r : response) : M (fetched expect_json) :=
  match expect_json with
  | true => json_of r
  | false => ret r
  end.

(** The int operand of [0.25 * (attempt + 1)], converted to float (exact
    for the attempt numbers of the loop). *)
Definition float_of_int (z : Z) : float := PrimFloat.of_uint63 (Uint63.of_Z z).

(** [0.25 * (attempt + 1)] *)
Definition backoff (attempt : Z) : float := (0.25 * float_of_int (attempt + 1))%float.

(** [range(n)] *)
Definition range (n : Z) : list Z := map Z.of_nat (seq 0 (Z.to_nat n)).

(** [f"{last_exc}"]; [last_exc] is None or a caught httpx.HTTPError, kept
    by its text. *)
Definition str_exc (last_exc : option string) : string :=
  match last_exc with
  | Some msg => msg
  | None => "None"
  end.

(** The [for attempt in ...] loop of [_get] over the attempts still to make,
    followed by the final [raise]. *)
Fixpoint _get_loop (url : string) (expect_json : bool) (params : kwargs)
    (attempts : list Z) (last_exc : option string) : M (fetched expect_json) :=
  match attempts with
  | [] => raise (HTTPException 502 ("Upstream error: " +:+ str_exc last_exc))
  | attempt :: rest =>
      except_HTTPError
        (r <- client_get url params ;;
         _ <- raise_for_status r ;;
         payload expect_json r)
        (fun exc =>
           _ <- sleep (backoff attempt) ;;
           _get_loop url expect_json params rest (Some exc))
  end.

(** [_get(client, url, expect_json=..., **params)]: [last_exc = None], then
    the loop over [range(RETRIES + 1)]. *)
Definition _get (url : string) (expect_json : bool) (params : kwargs)
  : M (fetched expect_json) :=
  _get_loop url expect_json params (range (RETRIES + 1)) None.

(** ** Python operations on decoded values *)

(** [x.get(k, d)]: only a dict has the method. *)
Definition py_get (x : json) (k : string) (d : json) : result json :=
  match x with
  | JObj m => Ok (default d (m !! k))
  | _ => Raise AttributeError
  end.

(** [x[k]] for a string key. *)
Definition py_getitem (x : json) (k : string) : result json :=
  match x with
  | JObj m => match m !! k with
              | Some v => Ok v
              | None => Raise KeyError
              end
  | _ => Raise TypeError
  end.

(** [x[0]]; a str is read character by character. *)
Definition py_index0 (x : json) : result json :=
  match x with
  | JArr (v :: _) => Ok v
  | JArr [] => Raise IndexError
  | JStr (String c _) => Ok (JStr (String c EmptyString))
  | JStr EmptyString => Raise IndexError
  | JObj _ => Raise KeyError
  | _ => Raise TypeError
  end.

(** [f"{x}"] *)
Definition fmt (x : json) : string :=
  match x with
  | JStr s => s
  | v => py_str v
  end.

(** ** Routes *)

(** The list comprehension [[PredictedStructure.model_validate(item) for item in data]] *)
Fixpoint validate_each (data : list json) : result (list PredictedStructure) :=
  match data with
  | [] => Ok []
  | item :: rest =>
      p <~ model_validate item ;;
      ps <~ validate_each rest ;;
      Ok (p :: ps)
  end.

Definition get_prediction (uniprot_id : string) : M (list PredictedStructure) :=
  let url := ALPHAFOLD_BASE +:+ "/api/prediction/" +:+ uniprot_id in
  data <- _get url true [] ;;
  match data with
  | JArr l =>
      if (length l =? 0)%nat
      then raise (HTTPException 404
                    ("No prediction found for accession " +:+ uniprot_id +:+ "."))
      else lift (validate_each l)
  | _ => raise (HTTPException 404
                  ("No prediction found for accession " +:+ uniprot_id +:+ "."))
  end.

(** Lines 95-98 of [search_by_gene]: what is read from the first hit. *)
Definition extract_fields (hit : json) : result (json * json * json * json) :=
  accession <~ py_getitem hit "primaryAccession" ;;
  gene_names <~
    (genes <~ py_get hit "genes" (JArr [JObj ∅]) ;;
     gene <~ py_index0 genes ;;
     geneName <~ py_get gene "geneName" (JObj ∅) ;;
     py_get geneName "value" (JStr "")) ;;
  protein_name <~
    (proteinDescription <~ py_get hit "proteinDescription" (JObj ∅) ;;
     recommendedName <~ py_get proteinDescription "recommendedName" (JObj ∅) ;;
     fullName <~ py_get recommendedName "fullName" (JObj ∅) ;;
     py_get fullName "value" (JStr "")) ;;
  organism <~
    (org <~ py_get hit "organism" (JObj ∅) ;;
     py_get org "scientificName" (JStr "")) ;;
  Ok (accession, gene_names, protein_name, organism).

(** The dict literal that [search_by_gene] returns. *)
Definition search_result (query : string) (accession gene_names protein_name organism : json)
    (pdb cif plddt : json) : json :=
  JObj (list_to_map
    [ ("query", JStr query);
      ("uniprot_accession", accession);
      ("gene_name", gene_names);
      ("protein_name", protein_name);
      ("organism", organism);
      ("pdbUrl", pdb);
      ("cifUrl", cif);
      ("pLDDT", plddt);
      ("source", JStr "AlphaFold DB") ]).

Definition search_params (query : string) : kwargs :=
  [ ("query", JStr query);
    ("fields", JStr "accession,gene_names,organism_name,protein_name");
    ("format", JStr "json");
    ("size", JInt 1) ].

Definition search_by_gene (query : string) : M json :=
  let params := search_params query in
  uni <- _get UNIPROT_SEARCH_URL true params ;;
  found <- lift (py_get uni "results" JNull) ;;
  if negb (truthy found)
  then raise (HTTPException 404
                ("No UniProt entry found for query '" +:+ query +:+ "'."))
  else
    results <- lift (py_getitem uni "results") ;;
    hit <- lift (py_index0 results) ;;
    fields <- lift (extract_fields hit) ;;
    let '(accession, gene_names, protein_name, organism) := fields in
    let pred_url := ALPHAFOLD_BASE +:+ "/api/prediction/" +:+ fmt accession in
    data <- _get pred_url true [] ;;
    if negb (truthy data)
    then raise (HTTPException 404
                  ("No AlphaFold prediction for accession " +:+ fmt accession +:+ "."))
    else
      model <- lift (py_index0 data) ;;
      pdb <- lift (py_get model "pdbUrl" JNull) ;;
      cif <- lift (py_get model "cifUrl" JNull) ;;
      plddt <- lift (py_get model "pLDDT" JNull) ;;
      ret (search_result query accession gene_names protein_name organism pdb cif plddt).

End Handlers.




(** * Vocabulary of the statements *)

(** Whether an attempt fails in the way [_get] retries: a transport error
    of the client, or a response outside 2xx.  The text is str(exc). *)
Definition failure_text (o : outcome) : option string :=
  match o with
  | HTTPErrorRaised msg => Some msg
  | Responded r => if is_success r then None else Some (status_error r)
  | OtherRaised _ => None
  end.

(** A call of [client.get], as opposed to a sleep. *)
Definition is_get (e : event) : bool :=
  match e with
  | EvGet _ _ => true
  | EvSleep _ => false
  end.

(** The world after [n] more calls of [client.get] and the events [evs]. *)
Definition logged (w : world) (n : nat) (evs : list event) : world :=
  {| served := (served w + n)%nat; trace := trace w ++ evs |}.

(** An optional field holds the item's value as it is when the item has it
    at the field's own type ([inj] is that type's constructor), and is
    absent when the item has no such key or has None there. *)
Definition copied {A} (inj : A -> json) (m : gmap string json) (k : string)
    (field : option A) : Prop :=
  (m !! k = None \/ m !! k = Some JNull -> field = None) /\
  (forall a, m !! k = Some (inj a) -> field = Some a).

(** A URL field holds the parsed URL of the item's string. *)
Definition url_copied `{Externals} (m : gmap string json) (k : string)
    (field : option HttpUrl) : Prop :=
  (m !! k = None \/ m !! k = Some JNull -> field = None) /\
  (forall s, m !! k = Some (JStr s) -> field = http_url s).

(** The projection [p] of the dict [m], field by field. *)
Definition copies_known_fields `{Externals} (m : gmap string json)
    (p : PredictedStructure) : Prop :=
  m !! "entryId" = Some (JStr (entryId p)) /\
  m !! "uniprotAccession" = Some (JStr (uniprotAccession p)) /\
  copied JStr m "uniprotId" (uniprotId p) /\
  copied JStr m "organismScientificName" (organismScientificName p) /\
  copied JInt m "uniprotStart" (uniprotStart p) /\
  copied JInt m "uniprotEnd" (uniprotEnd p) /\
  copied JStr m "modelCreatedDate" (modelCreatedDate p) /\
  url_copied m "pdbUrl" (pdbUrl p) /\
  url_copied m "cifUrl" (cifUrl p) /\
  url_copied m "paeImageUrl" (paeImageUrl p) /\
  copied JFloat m "pLDDT" (pLDDT p).

(** [f"{ALPHAFOLD_BASE}/api/prediction/{uniprot_id}"], the URL both
    handlers build. *)
Definition prediction_url (uniprot_id : string) : string :=
  ALPHAFOLD_BASE +:+ "/api/prediction/" +:+ uniprot_id.

(** A path into a decoded value: dict keys and "first element". *)
Inductive step :=
| Key (k : string)
| First.

(** The safe traversal: the value at the end of the path, or nothing as
    soon as a level is not there. *)
Fixpoint dig (v : json) (path : list step) : option json :=
  match path with
  | [] => Some v
  | Key k :: path' =>
      match v with
      | JObj m => match m !! k with
                  | Some x => dig x path'
                  | None => None
                  end
      | _ => None
      end
  | First :: path' =>
      match v with
      | JArr (x :: _) => dig x path'
      | _ => None
      end
  end.

(** Every level of the path that is there has the container the path goes
    through next: a dict before a key, a list with a first element before
    [First].  A key that is missing ends the check. *)
Fixpoint expected_shape (v : json) (path : list step) : bool :=
  match path with
  | [] => true
  | Key k :: path' =>
      match v with
      | JObj m => match m !! k with
                  | Some x => expected_shape x path'
                  | None => true
                  end
      | _ => false
      end
  | First :: path' =>
      match v with
      | JArr (x :: _) => expected_shape x path'
      | _ => false
      end
  end.

(** The three paths that lines 96-98 follow. *)
Definition gene_path : list step := [Key "genes"; First; Key "geneName"; Key "value"].
Definition protein_path : list step :=
  [Key "proteinDescription"; Key "recommendedName"; Key "fullName"; Key "value"].
Definition organism_path : list step := [Key "organism"; Key "scientificName"].

(** A call of the structure-prediction endpoint. *)
Definition is_prediction_call (e : event) : bool :=
  match e with
  | EvGet url _ => String.prefix (ALPHAFOLD_BASE +:+ "/api/prediction/") url
  | EvSleep _ => false
  end.

(** Lines 107-117 as a function of the one model they read. *)
Definition first_model_reply (query : string)
    (accession gene_names protein_name organism model : json) : result json :=
  pdb <~ py_get model "pdbUrl" JNull ;;
  cif <~ py_get model "cifUrl" JNull ;;
  plddt <~ py_get model "pLDDT" JNull ;;
  Ok (search_result query accession gene_names protein_name organism pdb cif plddt).

(** What [k] failed attempts in a row leave in the trace: each GET and the
    sleep after it. *)
Definition failures_log (url : string) (params : kwargs) (k : nat) : list event :=
  flat_map (fun secs => [EvGet url params; EvSleep secs])
    (firstn k [0.25; 0.5; 0.75]%float).

(** The first [k] attempts counted from [w] all fail in the way [_get]
    retries. *)
Definition first_fail `{Externals} (url : string) (params : kwargs) (w : world)
    (k : nat) : Prop :=
  forall i, (i < k)%nat -> failure_text (upstream (served w + i) url params) <> None.

(** The field names that [PredictedStructure] declares, and those among
    them that are Optional. *)
Definition optional_fields : list string :=
  [ "uniprotId"; "organismScientificName"; "uniprotStart"; "uniprotEnd";
    "modelCreatedDate"; "pdbUrl"; "cifUrl"; "paeImageUrl"; "pLDDT" ].

Definition declared_fields : list string :=
  "entryId" :: "uniprotAccession" :: optional_fields.

(** The first stage of [search_by_gene] went through: the knowledge base
    answered a dict with results, and the first hit gave these four values. *)
Definition first_stage `{Externals} (query : string) (w w1 : world)
    (accession gene_names protein_name organism : json) : Prop :=
  exists (u : gmap string json) results hit,
    _get UNIPROT_SEARCH_URL true (search_params query) w = (Ok (JObj u), w1) /\
    u !! "results" = Some results /\
    truthy results = true /\
    py_index0 results = Ok hit /\
    extract_fields hit = Ok (accession, gene_names, protein_name, organism).

(** * Sample upstreams and payloads *)

(** [scripted script] answers the n-th [client.get] with the n-th entry of
    [script] and refuses the connection afterwards; its URL parser takes
    every string as it is, it coerces nothing, and str() of a non-string is
    left empty. *)
Definition scripted (script : list outcome) : Externals := {|
  upstream n _ _ := nth n script (HTTPErrorRaised "connection refused");
  http_url s := Some (Url s);
  lax_int _ := None;
  lax_float _ := None;
  py_str _ := ""
|}.

(** Nothing called, nothing logged. *)
Definition w0 : world := {| served := 0; trace := [] |}.

(** A 200 answer with body [j]. *)
Definition ok_json (j : json) : outcome :=
  Responded {| status_code := 200; status_error := ""; body := Some j |}.

(** An answer with status [code] and no JSON body. *)
Definition status (code : Z) (text : string) : outcome :=
  Responded {| status_code := code; status_error := text; body := None |}.

(** A dict literal. *)
Definition obj (l : list (string * json)) : json := JObj (list_to_map l).

(** A 500, a timeout and a 404 in a row. *)
Definition three_failures : list outcome :=
  [status 500 "boom"; HTTPErrorRaised "timed out"; status 404 "gone"].

(** One model record with the two required fields and a PDB URL. *)
Definition sample_model : json :=
  obj [ ("entryId", JStr "AF-P31645-F1");
        ("uniprotAccession", JStr "P31645");
        ("uniprotStart", JInt 1);
        ("pdbUrl", JStr "https://alphafold.ebi.ac.uk/files/AF-P31645-F1.pdb");
        ("pLDDT", JFloat 81.5) ].

(** A record whose entryId is a number. *)
Definition nameless_model : gmap string json :=
  list_to_map [ ("entryId", JInt 7); ("uniprotAccession", JStr "P31645") ].

(** A hit without genes and without a recommended name. *)
Definition sparse_hit : gmap string json :=
  list_to_map
    [ ("primaryAccession", JStr "P31645");
      ("proteinDescription", obj []);
      ("organism", obj [("scientificName", JStr "Homo sapiens")]) ].

(** A hit whose organism is a bare string instead of a dict. *)
Definition malformed_hit : json :=
  obj [ ("primaryAccession", JStr "P31645"); ("organism", JStr "Homo sapiens") ].

(** The knowledge-base record of SLC6A4. *)
Definition slc6a4_hit : json :=
  obj [ ("primaryAccession", JStr "P31645");
        ("genes", JArr [obj [("geneName", obj [("value", JStr "SLC6A4")])]]);
        ("proteinDescription",
         obj [("recommendedName",
               obj [("fullName", obj [("value", JStr "Sodium-dependent serotonin transporter")])])]);
        ("organism", obj [("scientificName", JStr "Homo sapiens")]) ].

(** The search answer with that one hit. *)
Definition slc6a4_answer : gmap string json :=
  list_to_map [("results", JArr [slc6a4_hit])].

(** A second model of the same accession. *)
Definition fragment_model : json :=
  obj [ ("entryId", JStr "AF-P31645-F2");
        ("uniprotAccession", JStr "P31645");
        ("pdbUrl", JStr "https://alphafold.ebi.ac.uk/files/AF-P31645-F2.pdb") ].

(** The two upstreams answering in turn. *)
Definition slc6a4_upstream : Externals :=
  scripted [ok_json (JObj slc6a4_answer); ok_json (JArr [sample_model; fragment_model])].

(** What the search handler answers then. *)
Definition slc6a4_reply : json :=
  search_result "SLC6A4" (JStr "P31645") (JStr "SLC6A4")
    (JStr "Sodium-dependent serotonin transporter") (JStr "Homo sapiens")
    (JStr "https://alphafold.ebi.ac.uk/files/AF-P31645-F1.pdb") JNull (JFloat 81.5).

(** The knowledge base answers once, then the prediction service is down. *)
Definition slc6a4_then_down : Externals :=
  scripted (ok_json (JObj slc6a4_answer) :: three_failures).

(** The prediction service answers with an error object. *)
Definition slc6a4_then_error : Externals :=
  scripted [ok_json (JObj slc6a4_answer); ok_json (obj [("error", JStr "not found")])].

(** The prediction service answers with null. *)
Definition slc6a4_then_null : Externals :=
  scripted [ok_json (JObj slc6a4_answer); ok_json JNull].

(** The entries of a record that validates, with an explicit None. *)
Definition sample_record : gmap string json :=
  list_to_map
    [ ("entryId", JStr "AF-P31645-F1");
      ("uniprotAccession", JStr "P31645");
      ("uniprotStart", JInt 1);
      ("pdbUrl", JStr "https://alphafold.ebi.ac.uk/files/AF-P31645-F1.pdb");
      ("cifUrl", JNull);
      ("pLDDT", JFloat 81.5) ].

(** Its projection (the sample URL parser takes the string as it is). *)
Definition sample_projection : PredictedStructure :=
  {| entryId := "AF-P31645-F1"; uniprotAccession := "P31645"; uniprotId := None;
     organismScientificName := None; uniprotStart := Some 1; uniprotEnd := None;
     modelCreatedDate := None;
     pdbUrl := Some (Url "https://alphafold.ebi.ac.uk/files/AF-P31645-F1.pdb");
     cifUrl := None; paeImageUrl := None; pLDDT := Some 81.5%float |}.

(** * Properties *)

(** ** The retry helper *)

Section RetryFacts.
Context `{Externals}.
Variables (url : string) (expect_json : bool) (params : kwargs).

(** One failed attempt: the call, the sleep, then the rest of the loop. *)
Lemma _get_loop_failed attempt rest last w msg :
  failure_text (upstream (served w) url params) = Some msg ->
  _get_loop url expect_json params (attempt :: rest) last w =
  _get_loop url expect_json params rest (Some msg)
    (logged w 1 [EvGet url params; EvSleep (backoff attempt)]).
Proof.
  intros Hf. cbn [_get_loop].
  unfold except_HTTPError, bind, client_get, logged.
  destruct (upstream (served w) url params) as [r|m|m]; cbn in Hf; try discriminate.
  - unfold raise_for_status. destruct (is_success r); [discriminate|].
    injection Hf as ->. cbn. unfold sleep. cbn.
    rewrite <- app_assoc. cbn. rewrite Nat.add_1_r. reflexivity.
  - injection Hf as ->. cbn. unfold sleep. cbn.
    rewrite <- app_assoc. cbn. rewrite Nat.add_1_r. reflexivity.
Qed.

(** An attempt that does not fail that way ends the loop at once, after the
    call and without a sleep. *)
Lemma _get_loop_settled attempt rest last w :
  failure_text (upstream (served w) url params) = None ->
  snd (_get_loop url expect_json params (attempt :: rest) last w) =
  logged w 1 [EvGet url params].
Proof.
  intros Hf. cbn [_get_loop].
  unfold except_HTTPError, bind, client_get, logged.
  rewrite Nat.add_1_r.
  destruct (upstream (served w) url params) as [r|m|m]; cbn in Hf; try discriminate.
  - unfold raise_for_status. destruct (is_success r); [|discriminate].
    cbn. unfold payload, json_of, ret, raise.
    destruct expect_json; [destruct (body r)|]; reflexivity.
  - reflexivity.
Qed.

(** A 2xx answer with a JSON body is returned decoded. *)
Lemma _get_loop_json attempt rest last w r j :
  upstream (served w) url params = Responded r ->
  is_success r = true ->
  body r = Some j ->
  _get_loop url true params (attempt :: rest) last w =
  (Ok j, logged w 1 [EvGet url params]).
Proof.
  intros Hu Hs Hb. cbn [_get_loop].
  unfold except_HTTPError, bind, client_get, logged.
  rewrite Hu, Nat.add_1_r. unfold raise_for_status. rewrite Hs. cbn.
  unfold json_of. rewrite Hb. reflexivity.
Qed.

(** The only HTTPException the helper raises is the 502 after the loop. *)
Lemma _get_loop_http attempts last w code detail w' :
  _get_loop url expect_json params attempts last w =
    (Raise (HTTPException code detail), w') ->
  code = 502.
Proof.
  revert last w. induction attempts as [|attempt rest IH]; intros last w.
  - cbn. unfold raise. intros [= <- _ _]. reflexivity.
  - destruct (failure_text (upstream (served w) url params)) as [msg|] eqn:Hf.
    + rewrite (_get_loop_failed _ _ _ _ _ Hf). apply IH.
    + cbn [_get_loop]. unfold except_HTTPError, bind, client_get.
      destruct (upstream (served w) url params) as [r|m|m]; cbn in Hf; try discriminate.
      unfold raise_for_status. destruct (is_success r); [|discriminate].
        cbn. unfold payload, json_of, ret, raise.
        destruct expect_json; [destruct (body r)|]; discriminate.
Qed.

(** Everything the helper logs is a GET of its own URL or a sleep. *)
Lemma _get_loop_trace attempts last w :
  exists n evs,
    snd (_get_loop url expect_json params attempts last w) = logged w n evs /\
    Forall (fun e => e = EvGet url params \/ is_get e = false) evs.
Proof.
  revert last w. induction attempts as [|attempt rest IH]; intros last w.
  - exists 0%nat, []. cbn. unfold logged. rewrite Nat.add_0_r, app_nil_r.
    split; [destruct w; reflexivity | constructor].
  - destruct (failure_text (upstream (served w) url params)) as [msg|] eqn:Hf.
    + rewrite (_get_loop_failed _ _ _ _ _ Hf).
      destruct (IH (Some msg) (logged w 1 [EvGet url params; EvSleep (backoff attempt)]))
        as (n & evs & -> & Hall).
      exists (1 + n)%nat, ([EvGet url params; EvSleep (backoff attempt)] ++ evs).
      split.
      * unfold logged. cbn [served trace]. rewrite <- app_assoc, Nat.add_assoc. reflexivity.
      * apply Forall_app. split; [|exact Hall].
        constructor; [left; reflexivity|].
        constructor; [right; reflexivity|]. constructor.
    + rewrite (_get_loop_settled _ _ _ _ Hf).
      exists 1%nat, [EvGet url params]. split; [reflexivity|].
      constructor; [left; reflexivity | constructor].
Qed.

End RetryFacts.

Lemma range_retries : range (RETRIES + 1) = [0; 1; 2].
Proof. reflexivity. Qed.

Lemma backoff_values : map backoff [0; 1; 2] = [0.25; 0.5; 0.75]%float.
Proof. reflexivity. Qed.

Lemma logged_logged w n1 evs1 n2 evs2 :
  logged (logged w n1 evs1) n2 evs2 = logged w (n1 + n2) (evs1 ++ evs2).
Proof.
  unfold logged. cbn [served trace]. rewrite Nat.add_assoc, app_assoc. reflexivity.
Qed.

(** C3: when all attempts of a call of [_get] fail (the client raises an
    HTTPError, or the status is outside 2xx), exactly three calls of
    [client.get] are made and the helper raises an HTTPException with
    status 502 whose detail is "Upstream error: " followed by the text of
    the last failure. *)
Theorem _get_exhausted `{Externals} url expect_json params w m1 m2 m3 :
  failure_text (upstream (served w) url params) = Some m1 ->
  failure_text (upstream (served w + 1) url params) = Some m2 ->
  failure_text (upstream (served w + 2) url params) = Some m3 ->
  exists evs,
    _get url expect_json params w =
      (Raise (HTTPException 502 ("Upstream error: " +:+ m3)), logged w 3 evs) /\
    List.filter is_get evs = [EvGet url params; EvGet url params; EvGet url params].
Proof.
  intros H1 H2 H3. unfold _get. rewrite range_retries.
  rewrite (_get_loop_failed _ _ _ _ _ _ _ _ H1).
  rewrite (_get_loop_failed _ _ _ _ _ _ (logged w 1 _) _ H2), logged_logged.
  assert (H3' : failure_text
                  (upstream (served (logged w (1 + 1)
                     ([EvGet url params; EvSleep (backoff 0)] ++
                      [EvGet url params; EvSleep (backoff 1)]))) url params) = Some m3)
    by exact H3.
  rewrite (_get_loop_failed _ _ _ _ _ _ _ _ H3'), logged_logged.
  eexists. split; [reflexivity|]. reflexivity.
Qed.

Lemma _get_exhausted_witness :
  exists evs,
    @_get (scripted [status 500 "boom"; HTTPErrorRaised "timed out"; status 404 "gone"])
      "https://upstream" true [] w0 =
      (Raise (HTTPException 502 "Upstream error: gone"), logged w0 3 evs) /\
    List.filter is_get evs =
      [EvGet "https://upstream" []; EvGet "https://upstream" []; EvGet "https://upstream" []].
Proof.
  apply (@_get_exhausted
           (scripted [status 500 "boom"; HTTPErrorRaised "timed out"; status 404 "gone"])
           "https://upstream" true [] w0 "boom" "timed out" "gone"); reflexivity.
Defined.

(** C4, as the code has it: every failed attempt is followed by a sleep of
    0.25 x attempt-number seconds, the third one too.  With [k] failed
    attempts before the loop ends, the calls and sleeps of [_get] are: a GET
    and its sleep (0.25, 0.5, 0.75) for each failure, then one last GET
    without a sleep when an attempt did not fail (k < 3); when all three
    failed the last thing done before the 502 is the 0.75 s sleep. *)
Theorem _get_backoff `{Externals} url expect_json params w (k : nat) :
  (k <= 3)%nat ->
  (forall i, (i < k)%nat -> failure_text (upstream (served w + i) url params) <> None) ->
  ((k < 3)%nat -> failure_text (upstream (served w + k) url params) = None) ->
  trace (snd (_get url expect_json params w)) =
    trace w
    ++ flat_map (fun secs => [EvGet url params; EvSleep secs])
         (firstn k [0.25; 0.5; 0.75]%float)
    ++ (if (k <? 3)%nat then [EvGet url params] else []).
Proof.
  intros Hk Hfail Hlast. unfold _get. rewrite range_retries.
  assert (Hstep : forall i, (i < k)%nat ->
            exists msg, failure_text (upstream (served w + i) url params) = Some msg).
  { intros i Hi. specialize (Hfail i Hi).
    destruct (failure_text (upstream (served w + i) url params)) as [msg|];
      [eauto | congruence]. }
  destruct k as [|[|[|[|k]]]]; try lia.
  - specialize (Hlast ltac:(lia)). rewrite Nat.add_0_r in Hlast.
    rewrite (_get_loop_settled _ _ _ _ _ _ _ Hlast). reflexivity.
  - destruct (Hstep 0%nat ltac:(lia)) as [m1 H1]. rewrite Nat.add_0_r in H1.
    specialize (Hlast ltac:(lia)).
    rewrite (_get_loop_failed _ _ _ _ _ _ _ _ H1).
    rewrite (_get_loop_settled _ _ _ _ _ _ (logged w 1 _) Hlast), logged_logged.
    cbn [trace logged]. rewrite <- ?app_assoc. reflexivity.
  - destruct (Hstep 0%nat ltac:(lia)) as [m1 H1]. rewrite Nat.add_0_r in H1.
    destruct (Hstep 1%nat ltac:(lia)) as [m2 H2].
    specialize (Hlast ltac:(lia)).
    rewrite (_get_loop_failed _ _ _ _ _ _ _ _ H1).
    rewrite (_get_loop_failed _ _ _ _ _ _ (logged w 1 _) _ H2), logged_logged.
    rewrite (_get_loop_settled _ _ _ _ _ _ (logged w (1 + 1) _) Hlast), logged_logged.
    cbn [trace logged]. rewrite <- ?app_assoc. reflexivity.
  - destruct (Hstep 0%nat ltac:(lia)) as [m1 H1]. rewrite Nat.add_0_r in H1.
    destruct (Hstep 1%nat ltac:(lia)) as [m2 H2].
    destruct (Hstep 2%nat ltac:(lia)) as [m3 H3].
    rewrite (_get_loop_failed _ _ _ _ _ _ _ _ H1).
    rewrite (_get_loop_failed _ _ _ _ _ _ (logged w 1 _) _ H2), logged_logged.
    rewrite (_get_loop_failed _ _ _ _ _ _ (logged w (1 + 1) _) _ H3), logged_logged.
    cbn [trace logged]. rewrite <- ?app_assoc. reflexivity.
Qed.

Lemma _get_backoff_witness :
  trace (snd (@_get (scripted three_failures) "https://upstream" true [] w0)) =
    [EvGet "https://upstream" []; EvSleep 0.25;
     EvGet "https://upstream" []; EvSleep 0.5;
     EvGet "https://upstream" []; EvSleep 0.75].
Proof.
  apply (@_get_backoff (scripted three_failures) "https://upstream" true [] w0 3).
  - lia.
  - intros [|[|[|i]]] Hi; [discriminate.. | lia].
  - lia.
Defined.

(** C4 as worded fails: after three failed attempts the helper has slept a
    third time, 0.75 s after the final attempt, so its calls and sleeps are
    not GET, 0.25, GET, 0.5, GET. *)
Lemma _get_sleeps_after_final_attempt :
  trace (snd (@_get (scripted three_failures) "https://upstream" true [] w0)) =
    [EvGet "https://upstream" []; EvSleep 0.25;
     EvGet "https://upstream" []; EvSleep 0.5;
     EvGet "https://upstream" []; EvSleep 0.75] /\
  trace (snd (@_get (scripted three_failures) "https://upstream" true [] w0)) <>
    [EvGet "https://upstream" []; EvSleep 0.25;
     EvGet "https://upstream" []; EvSleep 0.5;
     EvGet "https://upstream" []].
Proof.
  split; [reflexivity|]. vm_compute. discriminate.
Qed.

(** ** The model *)

Section ModelFacts.
Context `{Externals}.

Lemma required_raises {A} (val : json -> option A) m k e :
  required val m k = Raise e -> e = ValidationError.
Proof.
  unfold required. destruct (m !! k) as [v|]; [destruct (val v)|]; congruence.
Qed.

Lemma optional_raises {A} (val : json -> option A) m k e :
  optional val m k = Raise e -> e = ValidationError.
Proof.
  unfold optional. destruct (m !! k) as [v|]; [|congruence].
  destruct v; try congruence; destruct (val _); congruence.
Qed.

Lemma rbind_raises {A B} (r : result A) (k : A -> result B) e :
  rbind r k = Raise e ->
  r = Raise e \/ exists a, r = Ok a /\ k a = Raise e.
Proof. destruct r as [a|e']; cbn; [eauto | intros [= ->]; auto]. Qed.

(** Validation fails in one way only. *)
Lemma model_validate_raises item e :
  model_validate item = Raise e -> e = ValidationError.
Proof.
  destruct item; cbn; try congruence.
  intros Hr.
  repeat match goal with
         | Hr : rbind _ _ = Raise _ |- _ =>
             apply rbind_raises in Hr; destruct Hr as [Hr | (? & _ & Hr)]
         | Hr : required _ _ _ = Raise _ |- _ => exact (required_raises _ _ _ _ Hr)
         | Hr : optional _ _ _ = Raise _ |- _ => exact (optional_raises _ _ _ _ Hr)
         end.
  discriminate.
Qed.

Lemma validate_each_raises data e :
  validate_each data = Raise e -> e = ValidationError.
Proof.
  induction data as [|item rest IH]; cbn; [discriminate|].
  destruct (model_validate item) as [p|e'] eqn:Hm; cbn.
  - destruct (validate_each rest) as [ps|e'']; cbn; [discriminate|].
    intros [= <-]. apply IH. reflexivity.
  - intros [= <-]. exact (model_validate_raises _ _ Hm).
Qed.

(** The comprehension succeeds exactly when every item validates, and then
    lists the projections item by item. *)
Lemma validate_each_ok data out :
  validate_each data = Ok out <->
  Forall2 (fun item p => model_validate item = Ok p) data out.
Proof.
  revert out. induction data as [|item rest IH]; intros out; cbn.
  - split; [intros [= <-]; constructor | intros Hall; inversion Hall; reflexivity].
  - destruct (model_validate item) as [p|e] eqn:Hm; cbn.
    + destruct (validate_each rest) as [ps|e] eqn:Hr; cbn.
      * split.
        -- intros [= <-]. constructor; [exact Hm | apply IH; reflexivity].
        -- intros Hall. inversion Hall as [|? q ? qs Hq Hqs]; subst.
           apply IH in Hqs. congruence.
      * split; [discriminate|].
        intros Hall. inversion Hall as [|? q ? qs Hq Hqs]; subst.
        apply IH in Hqs. discriminate.
    + split; [discriminate|].
      intros Hall. inversion Hall; subst. congruence.
Qed.

Lemma validate_each_bad data item :
  In item data ->
  (forall p, model_validate item <> Ok p) ->
  validate_each data = Raise ValidationError.
Proof.
  intros Hin Hbad.
  destruct (validate_each data) as [out|e] eqn:Hv.
  - exfalso. apply validate_each_ok in Hv.
    induction Hv as [|x p xs ps Hx _ IH]; [destruct Hin|].
    destruct Hin as [->|Hin]; [destruct (Hbad _ Hx) | exact (IH Hin)].
  - f_equal. exact (validate_each_raises _ _ Hv).
Qed.

End ModelFacts.

(** ** What the projection keeps of an item *)

Section ProjectionFacts.
Context `{Externals}.

Lemma required_str_ok m k s :
  required val_str m k = Ok s -> m !! k = Some (JStr s).
Proof.
  unfold required. destruct (m !! k) as [v|]; [|discriminate].
  destruct v; cbn; congruence.
Qed.

Lemma optional_str_ok m k f :
  optional val_str m k = Ok f -> copied JStr m k f.
Proof.
  unfold optional, copied. destruct (m !! k) as [v|].
  - destruct v; cbn; try discriminate; intros [= <-];
      (split; [intros [|]; congruence | intros a; congruence]).
  - intros [= <-]. split; [reflexivity | discriminate].
Qed.

Lemma optional_int_ok m k f :
  optional val_int m k = Ok f -> copied JInt m k f.
Proof.
  unfold optional, copied. destruct (m !! k) as [v|].
  - destruct v; cbn; try destruct (lax_int _); try discriminate; intros [= <-];
      (split; [intros [|]; congruence | intros a; congruence]).
  - intros [= <-]. split; [reflexivity | discriminate].
Qed.

Lemma optional_float_ok m k f :
  optional val_float m k = Ok f -> copied JFloat m k f.
Proof.
  unfold optional, copied. destruct (m !! k) as [v|].
  - destruct v; cbn; try destruct (lax_float _); try discriminate; intros [= <-];
      (split; [intros [|]; congruence | intros a; congruence]).
  - intros [= <-]. split; [reflexivity | discriminate].
Qed.

Lemma optional_url_ok m k f :
  optional val_url m k = Ok f -> url_copied m k f.
Proof.
  unfold optional, url_copied. destruct (m !! k) as [v|].
  - destruct v; cbn; try discriminate.
    + intros [= <-]. split; [reflexivity | discriminate].
    + destruct (http_url s) as [u|] eqn:Hu; [|discriminate].
      intros [= <-]. split; [intros [|]; discriminate | intros a [= <-]; congruence].
  - intros [= <-]. split; [reflexivity | discriminate].
Qed.

Lemma model_validate_fields m p :
  model_validate (JObj m) = Ok p -> copies_known_fields m p.
Proof.
  cbn.
  destruct (required val_str m "entryId") as [f1|] eqn:E1; [|discriminate].
  destruct (required val_str m "uniprotAccession") as [f2|] eqn:E2; [|discriminate].
  destruct (optional val_str m "uniprotId") as [f3|] eqn:E3; [|discriminate].
  destruct (optional val_str m "organismScientificName") as [f4|] eqn:E4; [|discriminate].
  destruct (optional val_int m "uniprotStart") as [f5|] eqn:E5; [|discriminate].
  destruct (optional val_int m "uniprotEnd") as [f6|] eqn:E6; [|discriminate].
  destruct (optional val_str m "modelCreatedDate") as [f7|] eqn:E7; [|discriminate].
  destruct (optional val_url m "pdbUrl") as [f8|] eqn:E8; [|discriminate].
  destruct (optional val_url m "cifUrl") as [f9|] eqn:E9; [|discriminate].
  destruct (optional val_url m "paeImageUrl") as [f10|] eqn:E10; [|discriminate].
  destruct (optional val_float m "pLDDT") as [f11|] eqn:E11; [|discriminate].
  cbn. intros [= <-]. unfold copies_known_fields. cbn.
  auto 20 using required_str_ok, optional_str_ok, optional_int_ok,
    optional_float_ok, optional_url_ok.
Qed.

(** An item that validates is a dict. *)
Lemma model_validate_dict item p :
  model_validate item = Ok p -> exists m, item = JObj m.
Proof. destruct item; cbn; try discriminate. eauto. Qed.

(** An item without a string under a required key does not validate. *)
Lemma model_validate_required m :
  (forall s, m !! "entryId" <> Some (JStr s)) \/
  (forall s, m !! "uniprotAccession" <> Some (JStr s)) ->
  forall p, model_validate (JObj m) <> Ok p.
Proof.
  intros Hbad p Hok. apply model_validate_fields in Hok.
  destruct Hok as (H1 & H2 & _). destruct Hbad as [Hbad|Hbad]; eapply Hbad; eauto.
Qed.

End ProjectionFacts.

(** ** The prediction route *)

(** C1, as the code has it: when the upstream payload is a non-empty list
    whose items all validate against PredictedStructure, the handler returns
    a sequence of the same length whose i-th element is the projection of
    the i-th item; the projection has the item's entryId and
    uniprotAccession, every optional field the item has at the declared
    type unchanged (URL strings parsed), and no value for an optional the
    item lacks or has as None. *)
Theorem get_prediction_projects `{Externals} uniprot_id w (items : list json) w1 :
  _get (prediction_url uniprot_id) true [] w = (Ok (JArr items), w1) ->
  items <> [] ->
  (forall item, In item items -> exists p, model_validate item = Ok p) ->
  exists out,
    get_prediction uniprot_id w = (Ok out, w1) /\
    length out = length items /\
    forall (i : nat) item, items !! i = Some item ->
      exists m p, item = JObj m /\ out !! i = Some p /\
                  model_validate item = Ok p /\ copies_known_fields m p.
Proof.
  intros Hget Hne Hvalid.
  destruct (validate_each items) as [out|e] eqn:Hv.
  - exists out. apply validate_each_ok in Hv as Hall.
    split; [|split].
    + unfold get_prediction, bind. fold (prediction_url uniprot_id). rewrite Hget.
      destruct items as [|item items]; [congruence|]. cbn [length Nat.eqb].
      unfold lift. rewrite Hv. reflexivity.
    + symmetry. exact (Forall2_length _ _ _ Hall).
    + intros i item Hi.
      destruct (Forall2_lookup_l _ _ _ _ _ Hall Hi) as (p & Hp & Hm).
      destruct (model_validate_dict _ _ Hm) as [m ->].
      exists m, p. auto using model_validate_fields.
  - exfalso.
    assert (Hok : exists out, validate_each items = Ok out).
    { clear - Hvalid. induction items as [|item items IH]; cbn; [eauto|].
      destruct (Hvalid item) as [p ->]; [left; reflexivity|].
      destruct IH as [ps ->]; [intros; apply Hvalid; right; assumption|]. cbn. eauto. }
    destruct Hok as [out Hok]. congruence.
Qed.

Lemma get_prediction_projects_witness :
  exists out,
    @get_prediction (scripted [ok_json (JArr [sample_model])]) "P31645" w0 =
      (Ok out, logged w0 1 [EvGet (prediction_url "P31645") []]) /\
    length out = 1%nat /\
    forall (i : nat) item, [sample_model] !! i = Some item ->
      exists m p, item = JObj m /\ out !! i = Some p /\
                  @model_validate (scripted [ok_json (JArr [sample_model])]) item = Ok p /\
                  @copies_known_fields (scripted [ok_json (JArr [sample_model])]) m p.
Proof.
  apply (@get_prediction_projects (scripted [ok_json (JArr [sample_model])])
           "P31645" w0 [sample_model]).
  - reflexivity.
  - discriminate.
  - intros item [<-|[]]. eexists. vm_compute. reflexivity.
Defined.

(** C1 as worded fails: a list with one record that has none of the
    required fields is not answered with a sequence of length one; the
    handler raises the validation error instead. *)
Lemma get_prediction_rejects_record :
  @get_prediction (scripted [ok_json (JArr [obj []])]) "P31645" w0 =
    (Raise ValidationError, logged w0 1 [EvGet (prediction_url "P31645") []]) /\
  ~ exists out w',
      @get_prediction (scripted [ok_json (JArr [obj []])]) "P31645" w0 = (Ok out, w') /\
      length out = length [obj []].
Proof.
  split; [reflexivity|]. intros (out & w' & Hrun & _). vm_compute in Hrun. discriminate.
Qed.

(** C2: when the upstream payload is an empty list or not a list at all,
    the handler raises an HTTPException with status 404 whose detail
    contains the requested accession. *)
Theorem get_prediction_not_found `{Externals} uniprot_id w (data : json) w1 :
  _get (prediction_url uniprot_id) true [] w = (Ok data, w1) ->
  data = JArr [] \/ (forall l, data <> JArr l) ->
  exists detail,
    get_prediction uniprot_id w = (Raise (HTTPException 404 detail), w1) /\
    exists pre post, detail = pre +:+ uniprot_id +:+ post.
Proof.
  intros Hget Hshape.
  exists ("No prediction found for accession " +:+ uniprot_id +:+ ".").
  split; [|eauto].
  unfold get_prediction, bind. fold (prediction_url uniprot_id). rewrite Hget.
  destruct Hshape as [->|Hnl]; [reflexivity|].
  destruct data; try reflexivity. destruct (Hnl l). reflexivity.
Qed.

Lemma get_prediction_not_found_witness :
  exists detail,
    @get_prediction (scripted [ok_json (JArr [])]) "Q00000" w0 =
      (Raise (HTTPException 404 detail), logged w0 1 [EvGet (prediction_url "Q00000") []]) /\
    exists pre post, detail = pre +:+ "Q00000" +:+ post.
Proof.
  apply (@get_prediction_not_found (scripted [ok_json (JArr [])]) "Q00000" w0 (JArr [])).
  - reflexivity.
  - left. reflexivity.
Defined.

(** C10: when the upstream list is non-empty and one of its items has no
    entryId or no uniprotAccession, or has something other than a string
    there, the handler raises pydantic's ValidationError: no projection with
    absent optionals, no 404 and no 502. *)
Theorem get_prediction_validation_error `{Externals} uniprot_id w (items : list json) w1 m :
  _get (prediction_url uniprot_id) true [] w = (Ok (JArr items), w1) ->
  In (JObj m) items ->
  (forall s, m !! "entryId" <> Some (JStr s)) \/
  (forall s, m !! "uniprotAccession" <> Some (JStr s)) ->
  get_prediction uniprot_id w = (Raise ValidationError, w1).
Proof.
  intros Hget Hin Hbad.
  unfold get_prediction, bind. fold (prediction_url uniprot_id). rewrite Hget.
  destruct items as [|item items]; [destruct Hin|]. cbn [length Nat.eqb].
  unfold lift.
  rewrite (validate_each_bad _ _ Hin (model_validate_required _ Hbad)). reflexivity.
Qed.

Lemma get_prediction_validation_error_witness :
  @get_prediction (scripted [ok_json (JArr [sample_model; JObj nameless_model])])
    "P31645" w0 =
  (Raise ValidationError, logged w0 1 [EvGet (prediction_url "P31645") []]).
Proof.
  apply (@get_prediction_validation_error
           (scripted [ok_json (JArr [sample_model; JObj nameless_model])])
           "P31645" w0 [sample_model; JObj nameless_model] _ nameless_model).
  - reflexivity.
  - right. left. reflexivity.
  - left. intros s. vm_compute. discriminate.
Defined.

(** ** The search route: reading the first hit *)

Lemma py_get_empty k d : py_get (JObj ∅) k d = Ok d.
Proof. cbn. rewrite lookup_empty. reflexivity. Qed.

Lemma gene_name_degrades h :
  expected_shape (JObj h) gene_path = true ->
  (genes <~ py_get (JObj h) "genes" (JArr [JObj ∅]) ;;
   gene <~ py_index0 genes ;;
   geneName <~ py_get gene "geneName" (JObj ∅) ;;
   py_get geneName "value" (JStr "")) =
  Ok (default (JStr "") (dig (JObj h) gene_path)).
Proof.
  cbn. destruct (h !! "genes") as [genes|]; cbn.
  - destruct genes as [| | | | |[|gene rest]|]; try discriminate.
    destruct gene as [| | | | | |g]; try discriminate. cbn.
    destruct (g !! "geneName") as [geneName|]; cbn.
    + destruct geneName as [| | | | | |gn]; try discriminate. cbn.
      destruct (gn !! "value"); reflexivity.
    + rewrite lookup_empty. reflexivity.
  - rewrite !lookup_empty. reflexivity.
Qed.

Lemma protein_name_degrades h :
  expected_shape (JObj h) protein_path = true ->
  (proteinDescription <~ py_get (JObj h) "proteinDescription" (JObj ∅) ;;
   recommendedName <~ py_get proteinDescription "recommendedName" (JObj ∅) ;;
   fullName <~ py_get recommendedName "fullName" (JObj ∅) ;;
   py_get fullName "value" (JStr "")) =
  Ok (default (JStr "") (dig (JObj h) protein_path)).
Proof.
  cbn. destruct (h !! "proteinDescription") as [pd|]; cbn.
  - destruct pd as [| | | | | |pd]; try discriminate. cbn.
    destruct (pd !! "recommendedName") as [rn|]; cbn.
    + destruct rn as [| | | | | |rn]; try discriminate. cbn.
      destruct (rn !! "fullName") as [fn|]; cbn.
      * destruct fn as [| | | | | |fn]; try discriminate. cbn.
        destruct (fn !! "value"); reflexivity.
      * rewrite lookup_empty. reflexivity.
    + rewrite !lookup_empty. reflexivity.
  - rewrite !lookup_empty. reflexivity.
Qed.

Lemma organism_degrades h :
  expected_shape (JObj h) organism_path = true ->
  (org <~ py_get (JObj h) "organism" (JObj ∅) ;;
   py_get org "scientificName" (JStr "")) =
  Ok (default (JStr "") (dig (JObj h) organism_path)).
Proof.
  cbn. destruct (h !! "organism") as [org|]; cbn.
  - destruct org as [| | | | | |org]; try discriminate. cbn.
    destruct (org !! "scientificName"); reflexivity.
  - rewrite lookup_empty. reflexivity.
Qed.

(** C6, as the code has it: when the hit is a dict with a primaryAccession
    and every level that is present on the way to the gene name, the protein
    name and the organism is the container the code expects (a dict, and for
    genes a list that starts with a dict), the extraction raises nothing and
    each of the three values is the one at the end of its path, or the empty
    string as soon as a level is missing. *)
Theorem extract_fields_degrades (h : gmap string json) accession :
  h !! "primaryAccession" = Some accession ->
  expected_shape (JObj h) gene_path = true ->
  expected_shape (JObj h) protein_path = true ->
  expected_shape (JObj h) organism_path = true ->
  extract_fields (JObj h) =
    Ok (accession,
        default (JStr "") (dig (JObj h) gene_path),
        default (JStr "") (dig (JObj h) protein_path),
        default (JStr "") (dig (JObj h) organism_path)).
Proof.
  intros Hacc Hg Hp Ho. unfold extract_fields.
  rewrite (gene_name_degrades h Hg), (protein_name_degrades h Hp),
    (organism_degrades h Ho).
  cbn. rewrite Hacc. reflexivity.
Qed.

Lemma extract_fields_degrades_witness :
  extract_fields (JObj sparse_hit) =
    Ok (JStr "P31645", JStr "", JStr "", JStr "Homo sapiens").
Proof.
  apply (extract_fields_degrades sparse_hit (JStr "P31645"));
    reflexivity.
Defined.

(** C6 as worded fails: a malformed level is not degraded to an empty
    string; the [.get] on it raises and the handler lets the error out. *)
Lemma extract_fields_malformed :
  extract_fields malformed_hit = Raise AttributeError /\
  fst (@search_by_gene (scripted [ok_json (obj [("results", JArr [malformed_hit])])])
         "SLC6A4" w0) = Raise AttributeError.
Proof. split; reflexivity. Qed.

(** A present but empty [genes] list is not degraded either: [[0]] raises. *)
Example extract_fields_empty_genes :
  extract_fields (obj [ ("primaryAccession", JStr "P31645"); ("genes", JArr []) ]) =
  Raise IndexError.
Proof. reflexivity. Qed.

(** ** The search route: the two stages *)

Lemma search_result_lookup query accession gene_names protein_name organism pdb cif plddt :
  exists r : gmap string json,
    search_result query accession gene_names protein_name organism pdb cif plddt = JObj r /\
    r !! "query" = Some (JStr query) /\
    r !! "uniprot_accession" = Some accession /\
    r !! "gene_name" = Some gene_names /\
    r !! "protein_name" = Some protein_name /\
    r !! "organism" = Some organism /\
    r !! "pdbUrl" = Some pdb /\
    r !! "cifUrl" = Some cif /\
    r !! "pLDDT" = Some plddt /\
    r !! "source" = Some (JStr "AlphaFold DB").
Proof. eexists. split; [reflexivity|]. repeat split; reflexivity. Qed.

(** C5: when the knowledge-base lookup comes back with no results, the
    handler raises an HTTPException with status 404 whose detail quotes the
    query, and nothing it did in that execution is a call of the
    structure-prediction endpoint. *)
Theorem search_by_gene_no_results `{Externals} query w (u : gmap string json) w1 :
  _get UNIPROT_SEARCH_URL true (search_params query) w = (Ok (JObj u), w1) ->
  truthy (default JNull (u !! "results")) = false ->
  search_by_gene query w =
    (Raise (HTTPException 404 ("No UniProt entry found for query '" +:+ query +:+ "'.")),
     w1) /\
  exists n evs, w1 = logged w n evs /\
                Forall (fun e => is_prediction_call e = false) evs.
Proof.
  intros Hget Hempty. split.
  - unfold search_by_gene, bind. rewrite Hget. cbn. rewrite Hempty. reflexivity.
  - destruct (_get_loop_trace UNIPROT_SEARCH_URL true (search_params query)
                (range (RETRIES + 1)) None w) as (n & evs & Hw & Hall).
    fold (_get UNIPROT_SEARCH_URL true (search_params query)) in Hw.
    rewrite Hget in Hw. cbn [snd] in Hw.
    exists n, evs. split; [exact Hw|].
    eapply Forall_impl; [exact Hall|].
    intros e [->|He]; [reflexivity | destruct e; [discriminate | reflexivity]].
Qed.

Lemma search_by_gene_no_results_witness :
  @search_by_gene (scripted [HTTPErrorRaised "reset"; ok_json (obj [("results", JArr [])])])
     "no-such-gene" w0 =
    (Raise (HTTPException 404 "No UniProt entry found for query 'no-such-gene'."),
     logged w0 2 [EvGet UNIPROT_SEARCH_URL (search_params "no-such-gene"); EvSleep 0.25;
                  EvGet UNIPROT_SEARCH_URL (search_params "no-such-gene")]) /\
  exists n evs,
    logged w0 2 [EvGet UNIPROT_SEARCH_URL (search_params "no-such-gene"); EvSleep 0.25;
                 EvGet UNIPROT_SEARCH_URL (search_params "no-such-gene")] = logged w0 n evs /\
    Forall (fun e => is_prediction_call e = false) evs.
Proof.
  apply (@search_by_gene_no_results
           (scripted [HTTPErrorRaised "reset"; ok_json (obj [("results", JArr [])])])
           "no-such-gene" w0 (list_to_map [("results", JArr [])])).
  - reflexivity.
  - reflexivity.
Defined.

(** C7: once the first stage has an accession, an empty prediction list
    makes the handler raise an HTTPException with status 404 whose detail
    names that accession; a non-empty list is answered from its first model
    alone, whatever follows it. *)
Theorem search_by_gene_first_model `{Externals} query w (u : gmap string json) w1
    results hit accession gene_names protein_name organism (models : list json) w2 :
  _get UNIPROT_SEARCH_URL true (search_params query) w = (Ok (JObj u), w1) ->
  u !! "results" = Some results ->
  truthy results = true ->
  py_index0 results = Ok hit ->
  extract_fields hit = Ok (accession, gene_names, protein_name, organism) ->
  _get (prediction_url (fmt accession)) true [] w1 = (Ok (JArr models), w2) ->
  search_by_gene query w =
    match models with
    | [] => (Raise (HTTPException 404
                      ("No AlphaFold prediction for accession " +:+ fmt accession +:+ ".")),
             w2)
    | model :: _ =>
        (first_model_reply query accession gene_names protein_name organism model, w2)
    end.
Proof.
  intros Hget Hres Htrue Hhit Hfields Hpred.
  unfold search_by_gene, bind, lift. rewrite Hget. cbn. rewrite Hres. cbn.
  rewrite Htrue. cbn. rewrite Hhit, Hfields.
  fold (prediction_url (fmt accession)). rewrite Hpred.
  destruct models as [|model rest]; [reflexivity|]. cbn.
  unfold first_model_reply.
  destruct (py_get model "pdbUrl" JNull) as [pdb|]; cbn; [|reflexivity].
  destruct (py_get model "cifUrl" JNull) as [cif|]; cbn; [|reflexivity].
  destruct (py_get model "pLDDT" JNull) as [plddt|]; cbn; reflexivity.
Qed.

Lemma search_by_gene_first_model_witness :
  @search_by_gene slc6a4_upstream "SLC6A4" w0 =
    (first_model_reply "SLC6A4" (JStr "P31645") (JStr "SLC6A4")
       (JStr "Sodium-dependent serotonin transporter") (JStr "Homo sapiens") sample_model,
     logged w0 2 [EvGet UNIPROT_SEARCH_URL (search_params "SLC6A4");
                  EvGet (prediction_url "P31645") []]).
Proof.
  apply (@search_by_gene_first_model slc6a4_upstream "SLC6A4" w0 slc6a4_answer
           (logged w0 1 [EvGet UNIPROT_SEARCH_URL (search_params "SLC6A4")])
           (JArr [slc6a4_hit]) slc6a4_hit (JStr "P31645") (JStr "SLC6A4")
           (JStr "Sodium-dependent serotonin transporter") (JStr "Homo sapiens")
           [sample_model; fragment_model]); reflexivity.
Defined.

(** C8: whenever the search handler returns, what it returns is a dict
    with the query as given, the accession, gene name, protein name and
    organism read from the first hit, the pdbUrl, cifUrl and pLDDT of the
    first model (None for a key the model does not have) and the source
    label "AlphaFold DB". *)
Theorem search_by_gene_reply `{Externals} query w v w' :
  search_by_gene query w = (Ok v, w') ->
  exists (u : gmap string json) w1 hit more accession gene_names protein_name organism
         (m : gmap string json) rest (r : gmap string json),
    _get UNIPROT_SEARCH_URL true (search_params query) w = (Ok (JObj u), w1) /\
    u !! "results" = Some (JArr (hit :: more)) /\
    extract_fields hit = Ok (accession, gene_names, protein_name, organism) /\
    _get (prediction_url (fmt accession)) true [] w1 = (Ok (JArr (JObj m :: rest)), w') /\
    v = JObj r /\
    r !! "query" = Some (JStr query) /\
    r !! "uniprot_accession" = Some accession /\
    r !! "gene_name" = Some gene_names /\
    r !! "protein_name" = Some protein_name /\
    r !! "organism" = Some organism /\
    r !! "pdbUrl" = Some (default JNull (m !! "pdbUrl")) /\
    r !! "cifUrl" = Some (default JNull (m !! "cifUrl")) /\
    r !! "pLDDT" = Some (default JNull (m !! "pLDDT")) /\
    r !! "source" = Some (JStr "AlphaFold DB").
Proof.
  unfold search_by_gene, bind, lift.
  destruct (_get UNIPROT_SEARCH_URL true (search_params query) w) as [[uni|e] w1] eqn:Hg1;
    [|discriminate].
  destruct uni as [| | | | | |u]; cbn; try discriminate.
  destruct (u !! "results") as [results|] eqn:Hres; cbn; [|discriminate].
  destruct (truthy results) eqn:Htrue; cbn; [|discriminate].
  destruct results as [| | | |[|c s]|[|hit more]|]; cbn; try discriminate.
  destruct (extract_fields hit) as [[[[accession gene_names] protein_name] organism]|e]
    eqn:Hfields; [|discriminate].
  fold (prediction_url (fmt accession)).
  destruct (_get (prediction_url (fmt accession)) true [] w1) as [[data|e] w2] eqn:Hg2;
    [|discriminate].
  destruct (truthy data) eqn:Hdata; cbn; [|discriminate].
  destruct data as [| | | |[|c s]|[|model rest]|]; cbn; try discriminate.
  destruct model as [| | | | | |m]; cbn; try discriminate.
  intros [= <- <-].
  destruct (search_result_lookup query accession gene_names protein_name organism
              (default JNull (m !! "pdbUrl")) (default JNull (m !! "cifUrl"))
              (default JNull (m !! "pLDDT"))) as (r & Hr & Hlookups).
  exists u, w1, hit, more, accession, gene_names, protein_name, organism, m, rest, r.
  repeat (split; [first [reflexivity | assumption]|]). exact Hlookups.
Qed.

Lemma search_by_gene_reply_witness :
  exists (u : gmap string json) w1 hit more accession gene_names protein_name organism
         (m : gmap string json) rest (r : gmap string json),
    @_get slc6a4_upstream UNIPROT_SEARCH_URL true (search_params "SLC6A4") w0 =
      (Ok (JObj u), w1) /\
    u !! "results" = Some (JArr (hit :: more)) /\
    extract_fields hit = Ok (accession, gene_names, protein_name, organism) /\
    @_get slc6a4_upstream (prediction_url (@fmt slc6a4_upstream accession)) true [] w1 =
      (Ok (JArr (JObj m :: rest)),
       logged w0 2 [EvGet UNIPROT_SEARCH_URL (search_params "SLC6A4");
                    EvGet (prediction_url "P31645") []]) /\
    slc6a4_reply = JObj r /\
    r !! "query" = Some (JStr "SLC6A4") /\
    r !! "uniprot_accession" = Some accession /\
    r !! "gene_name" = Some gene_names /\
    r !! "protein_name" = Some protein_name /\
    r !! "organism" = Some organism /\
    r !! "pdbUrl" = Some (default JNull (m !! "pdbUrl")) /\
    r !! "cifUrl" = Some (default JNull (m !! "cifUrl")) /\
    r !! "pLDDT" = Some (default JNull (m !! "pLDDT")) /\
    r !! "source" = Some (JStr "AlphaFold DB").
Proof.
  apply (@search_by_gene_reply slc6a4_upstream "SLC6A4" w0 slc6a4_reply
           (logged w0 2 [EvGet UNIPROT_SEARCH_URL (search_params "SLC6A4");
                         EvGet (prediction_url "P31645") []])).
  reflexivity.
Defined.

(** The end-to-end scenario: SLC6A4 resolves to P31645, whose one model
    has a PDB URL and nothing else the handler reads. *)
Example slc6a4_end_to_end :
  fst (@search_by_gene
         (scripted [ok_json (JObj slc6a4_answer);
                    ok_json (JArr [obj [("pdbUrl", JStr "https://.../P31645.pdb")]])])
         "SLC6A4" w0) =
  Ok (search_result "SLC6A4" (JStr "P31645") (JStr "SLC6A4")
        (JStr "Sodium-dependent serotonin transporter") (JStr "Homo sapiens")
        (JStr "https://.../P31645.pdb") JNull JNull).
Proof. reflexivity. Qed.

(** ** Both routes: what can come out *)


(** * Further properties of the helper and the handlers *)

(** ** The retry helper: the attempt that ends the loop *)

Section SettledFacts.
Context `{Externals}.
Variables (url : string) (params : kwargs).

Lemma _get_loop_raw attempt rest last w r :
  upstream (served w) url params = Responded r ->
  is_success r = true ->
  _get_loop url false params (attempt :: rest) last w =
  (Ok r, logged w 1 [EvGet url params]).
Proof.
  intros Hu Hs. cbn [_get_loop].
  unfold except_HTTPError, bind, client_get, logged.
  rewrite Hu, Nat.add_1_r. unfold raise_for_status. rewrite Hs. reflexivity.
Qed.

Lemma _get_loop_undecodable attempt rest last w r :
  upstream (served w) url params = Responded r ->
  is_success r = true ->
  body r = None ->
  _get_loop url true params (attempt :: rest) last w =
  (Raise JSONDecodeError, logged w 1 [EvGet url params]).
Proof.
  intros Hu Hs Hb. cbn [_get_loop].
  unfold except_HTTPError, bind, client_get, logged.
  rewrite Hu, Nat.add_1_r. unfold raise_for_status. rewrite Hs. cbn.
  unfold json_of. rewrite Hb. reflexivity.
Qed.

Lemma _get_loop_client_error expect_json attempt rest last w msg :
  upstream (served w) url params = OtherRaised msg ->
  _get_loop url expect_json params (attempt :: rest) last w =
  (Raise (ClientError msg), logged w 1 [EvGet url params]).
Proof.
  intros Hu. cbn [_get_loop].
  unfold except_HTTPError, bind, client_get, logged.
  rewrite Hu, Nat.add_1_r. reflexivity.
Qed.

(** After [k < 3] failed attempts the helper is at attempt [k], with the
    calls and sleeps of the failures behind it. *)
Lemma _get_after_failures expect_json w k :
  (k < 3)%nat ->
  first_fail url params w k ->
  exists last rest,
    _get url expect_json params w =
    _get_loop url expect_json params (Z.of_nat k :: rest) last
      (logged w k (failures_log url params k)).
Proof.
  intros Hk Hfail. unfold _get. rewrite range_retries.
  assert (Hstep : forall i, (i < k)%nat ->
            exists msg, failure_text (upstream (served w + i) url params) = Some msg).
  { intros i Hi. specialize (Hfail i Hi).
    destruct (failure_text (upstream (served w + i) url params)) as [msg|];
      [eauto | congruence]. }
  destruct k as [|[|[|k]]]; try lia.
  - exists None, [1; 2]. unfold logged, failures_log. cbn.
    rewrite Nat.add_0_r, app_nil_r. destruct w; reflexivity.
  - destruct (Hstep 0%nat ltac:(lia)) as [m1 H1]. rewrite Nat.add_0_r in H1.
    exists (Some m1), [2].
    rewrite (_get_loop_failed _ _ _ _ _ _ _ _ H1). reflexivity.
  - destruct (Hstep 0%nat ltac:(lia)) as [m1 H1]. rewrite Nat.add_0_r in H1.
    destruct (Hstep 1%nat ltac:(lia)) as [m2 H2].
    exists (Some m2), [].
    rewrite (_get_loop_failed _ _ _ _ _ _ _ _ H1).
    rewrite (_get_loop_failed _ _ _ _ _ _ (logged w 1 _) _ H2), logged_logged.
    reflexivity.
Qed.

Lemma served_logged w n evs : served (logged w n evs) = (served w + n)%nat.
Proof. reflexivity. Qed.

End SettledFacts.

(** X1: a retry recovers.  When the first [k] attempts fail (k at most 2)
    and the next one is answered 2xx with a JSON body, [_get] returns that
    body after exactly k+1 calls, having slept only after the failures. *)
Theorem _get_recovers `{Externals} url params w (k : nat) r j :
  (k < 3)%nat ->
  first_fail url params w k ->
  upstream (served w + k) url params = Responded r ->
  is_success r = true ->
  body r = Some j ->
  _get url true params w =
    (Ok j, logged w (k + 1) (failures_log url params k ++ [EvGet url params])).
Proof.
  intros Hk Hfail Hu Hs Hb.
  destruct (_get_after_failures url params true w k Hk Hfail) as (last & rest & ->).
  rewrite (_get_loop_json url params _ _ _ (logged w k _) r j Hu Hs Hb).
  rewrite logged_logged. reflexivity.
Qed.

Lemma _get_recovers_witness :
  @_get (scripted [status 503 "busy"; HTTPErrorRaised "reset"; ok_json (JArr [])])
    "https://upstream" true [] w0 =
  (Ok (JArr []),
   logged w0 (2 + 1)
     (failures_log "https://upstream" [] 2 ++ [EvGet "https://upstream" []])).
Proof.
  apply (@_get_recovers
           (scripted [status 503 "busy"; HTTPErrorRaised "reset"; ok_json (JArr [])])
           "https://upstream" [] w0 2
           {| status_code := 200; status_error := ""; body := Some (JArr []) |}).
  - lia.
  - intros [|[|i]] Hi; [discriminate.. | lia].
  - reflexivity.
  - reflexivity.
  - reflexivity.
Defined.

(** X2: an exception of the client that is not an httpx.HTTPError is not
    retried: it leaves [_get] as it is, right after the call that raised
    it, with no sleep and no further attempt. *)
Theorem _get_client_error_not_retried `{Externals} url expect_json params w (k : nat) msg :
  (k < 3)%nat ->
  first_fail url params w k ->
  upstream (served w + k) url params = OtherRaised msg ->
  _get url expect_json params w =
    (Raise (ClientError msg),
     logged w (k + 1) (failures_log url params k ++ [EvGet url params])).
Proof.
  intros Hk Hfail Hu.
  destruct (_get_after_failures url params expect_json w k Hk Hfail) as (last & rest & ->).
  rewrite (_get_loop_client_error url params _ _ _ _ (logged w k _) msg Hu).
  rewrite logged_logged. reflexivity.
Qed.

Lemma _get_client_error_not_retried_witness :
  @_get (scripted [OtherRaised "Invalid URL"; ok_json (JArr [])])
    "https://upstream" true [] w0 =
  (Raise (ClientError "Invalid URL"),
   logged w0 (0 + 1)
     (failures_log "https://upstream" [] 0 ++ [EvGet "https://upstream" []])).
Proof.
  apply (@_get_client_error_not_retried
           (scripted [OtherRaised "Invalid URL"; ok_json (JArr [])])
           "https://upstream" true [] w0 0 "Invalid URL").
  - lia.
  - intros i Hi. lia.
  - reflexivity.
Defined.

(** X3: a 2xx answer whose body is not JSON is not retried either: with
    [expect_json] set, the decoding error of [r.json()] leaves [_get] at
    once, and no 502 is made of it. *)
Theorem _get_undecodable_not_retried `{Externals} url params w (k : nat) r :
  (k < 3)%nat ->
  first_fail url params w k ->
  upstream (served w + k) url params = Responded r ->
  is_success r = true ->
  body r = None ->
  _get url true params w =
    (Raise JSONDecodeError,
     logged w (k + 1) (failures_log url params k ++ [EvGet url params])).
Proof.
  intros Hk Hfail Hu Hs Hb.
  destruct (_get_after_failures url params true w k Hk Hfail) as (last & rest & ->).
  rewrite (_get_loop_undecodable url params _ _ _ (logged w k _) r Hu Hs Hb).
  rewrite logged_logged. reflexivity.
Qed.

Lemma _get_undecodable_not_retried_witness :
  @_get (scripted [status 500 "boom"; status 200 ""; ok_json (JArr [])])
    "https://upstream" true [] w0 =
  (Raise JSONDecodeError,
   logged w0 (1 + 1)
     (failures_log "https://upstream" [] 1 ++ [EvGet "https://upstream" []])).
Proof.
  apply (@_get_undecodable_not_retried
           (scripted [status 500 "boom"; status 200 ""; ok_json (JArr [])])
           "https://upstream" [] w0 1
           {| status_code := 200; status_error := ""; body := None |}).
  - lia.
  - intros [|i] Hi; [discriminate | lia].
  - reflexivity.
  - reflexivity.
  - reflexivity.
Defined.

(** X4: without [expect_json] the helper hands back the 2xx response
    itself and never decodes it, so a body that is not JSON is no error. *)
Theorem _get_raw_response `{Externals} url params w (k : nat) r :
  (k < 3)%nat ->
  first_fail url params w k ->
  upstream (served w + k) url params = Responded r ->
  is_success r = true ->
  _get url false params w =
    (Ok r, logged w (k + 1) (failures_log url params k ++ [EvGet url params])).
Proof.
  intros Hk Hfail Hu Hs.
  destruct (_get_after_failures url params false w k Hk Hfail) as (last & rest & ->).
  rewrite (_get_loop_raw url params _ _ _ (logged w k _) r Hu Hs).
  rewrite logged_logged. reflexivity.
Qed.

Lemma _get_raw_response_witness :
  @_get (scripted [status 204 ""]) "https://upstream" false [] w0 =
  (Ok {| status_code := 204; status_error := ""; body := None |},
   logged w0 (0 + 1)
     (failures_log "https://upstream" [] 0 ++ [EvGet "https://upstream" []])).
Proof.
  apply (@_get_raw_response (scripted [status 204 ""]) "https://upstream" [] w0 0
           {| status_code := 204; status_error := ""; body := None |}).
  - lia.
  - intros i Hi. lia.
  - reflexivity.
  - reflexivity.
Defined.

(** ** The retry helper: whatever the upstream does *)

Section AnyUpstream.
Context `{Externals}.
Variables (url : string) (params : kwargs).

Lemma _get_loop_ok_inv attempts last w j w' :
  _get_loop url true params attempts last w = (Ok j, w') ->
  exists (k : nat) r,
    (k < length attempts)%nat /\
    first_fail url params w k /\
    upstream (served w + k) url params = Responded r /\
    is_success r = true /\
    body r = Some j.
Proof.
  revert last w. induction attempts as [|attempt rest IH]; intros last w.
  - cbn. unfold raise. discriminate.
  - destruct (failure_text (upstream (served w) url params)) as [msg|] eqn:Hf.
    + rewrite (_get_loop_failed _ _ _ _ _ _ _ _ Hf). intros Hrun.
      destruct (IH _ _ Hrun) as (k & r & Hk & Hfail & Hu & Hs & Hb).
      rewrite served_logged in Hu.
      exists (S k), r. repeat split; try assumption.
      * cbn. lia.
      * intros [|i] Hi.
        -- rewrite Nat.add_0_r, Hf. discriminate.
        -- specialize (Hfail i ltac:(lia)). rewrite served_logged in Hfail.
           replace (served w + S i)%nat with (served w + 1 + i)%nat by lia.
           exact Hfail.
      * replace (served w + S k)%nat with (served w + 1 + k)%nat by lia. exact Hu.
    + cbn [_get_loop]. unfold except_HTTPError, bind, client_get.
      destruct (upstream (served w) url params) as [r|m|m] eqn:Hu;
        cbn in Hf; try discriminate.
      unfold raise_for_status.
      destruct (is_success r) eqn:Hs; [|discriminate]. cbn. unfold json_of.
      destruct (body r) as [j'|] eqn:Hb; [|discriminate].
      intros [= <- _].
      exists 0%nat, r. rewrite Nat.add_0_r.
      repeat split; try assumption; [cbn; lia | intros i Hi; lia].
Qed.

Lemma _get_loop_bound expect_json attempts last w :
  exists (n : nat) evs,
    snd (_get_loop url expect_json params attempts last w) = logged w n evs /\
    (n <= length attempts)%nat /\
    (attempts <> [] -> 1 <= n)%nat /\
    length (List.filter is_get evs) = n /\
    (length evs <= 2 * n)%nat /\
    Forall (fun e => is_get e = true -> e = EvGet url params) evs.
Proof.
  revert last w. induction attempts as [|attempt rest IH]; intros last w.
  - exists 0%nat, []. cbn. unfold logged. rewrite Nat.add_0_r, app_nil_r.
    repeat split; try (destruct w; reflexivity); try lia; [congruence | constructor].
  - destruct (failure_text (upstream (served w) url params)) as [msg|] eqn:Hf.
    + rewrite (_get_loop_failed _ _ _ _ _ _ _ _ Hf).
      destruct (IH (Some msg) (logged w 1 [EvGet url params; EvSleep (backoff attempt)]))
        as (n & evs & -> & Hn & _ & Hgets & Hlen & Hall).
      exists (1 + n)%nat, ([EvGet url params; EvSleep (backoff attempt)] ++ evs).
      rewrite logged_logged. repeat split.
      * cbn. lia.
      * lia.
      * cbn. rewrite Hgets. reflexivity.
      * cbn. cbn in Hlen. lia.
      * constructor; [reflexivity|]. constructor; [discriminate | exact Hall].
    + rewrite (_get_loop_settled _ _ _ _ _ _ _ Hf).
      exists 1%nat, [EvGet url params].
      repeat split; cbn; try lia. constructor; [reflexivity | constructor].
Qed.

Lemma _get_loop_raises expect_json attempts last w e w' :
  _get_loop url expect_json params attempts last w = (Raise e, w') ->
  (exists msg, e = HTTPException 502 ("Upstream error: " +:+ msg)) \/
  (exists msg, e = ClientError msg) \/
  (e = JSONDecodeError /\ expect_json = true).
Proof.
  revert last w. induction attempts as [|attempt rest IH]; intros last w.
  - cbn. unfold raise. intros [= <- _]. left. eauto.
  - destruct (failure_text (upstream (served w) url params)) as [msg|] eqn:Hf.
    + rewrite (_get_loop_failed _ _ _ _ _ _ _ _ Hf). apply IH.
    + cbn [_get_loop]. unfold except_HTTPError, bind, client_get.
      destruct (upstream (served w) url params) as [r|m|m]; cbn in Hf; try discriminate.
      * unfold raise_for_status. destruct (is_success r); [|discriminate].
        cbn. unfold payload, json_of, ret, raise.
        destruct expect_json; [destruct (body r)|]; try discriminate.
        intros [= <- _]. right. right. split; reflexivity.
      * intros [= <- _]. right. left. eauto.
Qed.

End AnyUpstream.

(** X5: a value that [_get] returns is always the JSON body of a 2xx
    answer: some attempt [k] among the three was answered 2xx with exactly
    that body, every attempt before it failed, and [_get] stopped there,
    after k+1 calls. *)
Theorem _get_ok_is_a_body `{Externals} url params w (j : json) w' :
  _get url true params w = (Ok j, w') ->
  exists (k : nat) r,
    (k < 3)%nat /\
    first_fail url params w k /\
    upstream (served w + k) url params = Responded r /\
    is_success r = true /\
    body r = Some j /\
    w' = logged w (k + 1) (failures_log url params k ++ [EvGet url params]).
Proof.
  intros Hrun.
  destruct (_get_loop_ok_inv url params _ _ _ _ _ Hrun)
    as (k & r & Hk & Hfail & Hu & Hs & Hb).
  rewrite range_retries in Hk. cbn in Hk.
  exists k, r. repeat split; try assumption.
  destruct (_get_after_failures url params true w k Hk Hfail) as (last & rest & Hgo).
  rewrite Hgo in Hrun.
  rewrite (_get_loop_json url params _ _ _ (logged w k _) r j Hu Hs Hb) in Hrun.
  rewrite logged_logged in Hrun. congruence.
Qed.

Lemma _get_ok_is_a_body_witness :
  exists (k : nat) r,
    (k < 3)%nat /\
    @first_fail (scripted [status 503 "busy"; ok_json (JInt 7)]) "https://upstream" [] w0 k /\
    @upstream (scripted [status 503 "busy"; ok_json (JInt 7)])
       (served w0 + k) "https://upstream" [] = Responded r /\
    is_success r = true /\
    body r = Some (JInt 7) /\
    logged w0 2 [EvGet "https://upstream" []; EvSleep 0.25; EvGet "https://upstream" []] =
      logged w0 (k + 1)
        (failures_log "https://upstream" [] k ++ [EvGet "https://upstream" []]).
Proof.
  apply (@_get_ok_is_a_body (scripted [status 503 "busy"; ok_json (JInt 7)])
           "https://upstream" [] w0 (JInt 7)).
  reflexivity.
Defined.

(** X6: whatever the upstream does, one call of [_get] makes at least one
    and at most three calls of [client.get], every one of them with the URL
    and the parameters it was given, and sleeps at most once per call. *)
Theorem _get_call_bound `{Externals} url expect_json params w :
  exists (n : nat) evs,
    snd (_get url expect_json params w) = logged w n evs /\
    (1 <= n <= 3)%nat /\
    length (List.filter is_get evs) = n /\
    (length evs <= 2 * n)%nat /\
    Forall (fun e => is_get e = true -> e = EvGet url params) evs.
Proof.
  destruct (_get_loop_bound url params expect_json (range (RETRIES + 1)) None w)
    as (n & evs & Hw & Hn & H1 & Hgets & Hlen & Hall).
  exists n, evs. rewrite range_retries in Hn, H1. cbn in Hn.
  repeat split; try assumption. apply H1. discriminate.
Qed.

(** X7: [_get] lets no httpx.HTTPError out.  What it raises is the 502
    HTTPException with a detail that starts "Upstream error: ", or an
    exception of the client outside HTTPError, or, with [expect_json], the
    decoding error of a body that is not JSON. *)
Theorem _get_raises_only `{Externals} url expect_json params w e w' :
  _get url expect_json params w = (Raise e, w') ->
  (exists msg, e = HTTPException 502 ("Upstream error: " +:+ msg)) \/
  (exists msg, e = ClientError msg) \/
  (e = JSONDecodeError /\ expect_json = true).
Proof.
  intros Hrun. unfold _get in Hrun.
  exact (_get_loop_raises url params expect_json _ _ _ _ _ Hrun).
Qed.

Lemma _get_raises_only_witness :
  (exists msg, HTTPException 502 "Upstream error: gone" =
               HTTPException 502 ("Upstream error: " +:+ msg)) \/
  (exists msg, HTTPException 502 "Upstream error: gone" = ClientError msg) \/
  (HTTPException 502 "Upstream error: gone" = JSONDecodeError /\ true = true).
Proof.
  apply (@_get_raises_only (scripted three_failures) "https://upstream" true [] w0
           (HTTPException 502 "Upstream error: gone")
           (logged w0 3 (failures_log "https://upstream" [] 3))).
  reflexivity.
Defined.

(** ** The model: what validation looks at *)

Section ValidationFacts.
Context `{Externals}.

Lemma required_insert_ne {A} (val : json -> option A) m k k' v :
  k <> k' -> required val (<[k:=v]> m) k' = required val m k'.
Proof. intros Hne. unfold required. rewrite lookup_insert_ne by exact Hne. reflexivity. Qed.

Lemma optional_insert_ne {A} (val : json -> option A) m k k' v :
  k <> k' -> optional val (<[k:=v]> m) k' = optional val m k'.
Proof. intros Hne. unfold optional. rewrite lookup_insert_ne by exact Hne. reflexivity. Qed.

Lemma required_delete_ne {A} (val : json -> option A) m k k' :
  k <> k' -> required val (delete k m) k' = required val m k'.
Proof. intros Hne. unfold required. rewrite lookup_delete_ne by exact Hne. reflexivity. Qed.

Lemma optional_delete_ne {A} (val : json -> option A) m k k' :
  k <> k' -> optional val (delete k m) k' = optional val m k'.
Proof. intros Hne. unfold optional. rewrite lookup_delete_ne by exact Hne. reflexivity. Qed.

(** For an Optional field an explicit None and a missing key are the same. *)
Lemma optional_delete_null {A} (val : json -> option A) m k :
  m !! k = Some JNull -> optional val (delete k m) k = optional val m k.
Proof. intros Hnull. unfold optional. rewrite lookup_delete_eq, Hnull. reflexivity. Qed.

Lemma optional_absent {A} (val : json -> option A) m k :
  m !! k = None \/ m !! k = Some JNull -> optional val m k = Ok None.
Proof. unfold optional. intros [->| ->]; reflexivity. Qed.

End ValidationFacts.

(** X8: a key that [PredictedStructure] does not declare plays no part:
    adding it to a record, or changing its value, changes neither whether
    the record validates nor the projection. *)
Theorem model_validate_ignores_extra `{Externals} (m : gmap string json) k v :
  ~ In k declared_fields ->
  model_validate (JObj (<[k:=v]> m)) = model_validate (JObj m).
Proof.
  intros Hk.
  assert (Hne : forall k', In k' declared_fields -> k <> k').
  { intros k' Hin ->. exact (Hk Hin). }
  cbn [model_validate].
  rewrite !required_insert_ne, !optional_insert_ne
    by (apply Hne; cbn; tauto).
  reflexivity.
Qed.

Lemma model_validate_ignores_extra_witness :
  @model_validate (scripted []) (JObj (<["latestVersion" := JInt 4]> sample_record)) =
    @model_validate (scripted []) (JObj sample_record) /\
  @model_validate (scripted []) (JObj sample_record) = Ok sample_projection /\
  @model_validate (scripted []) (JObj (<["latestVersion" := JInt 4]> sample_record)) =
    Ok sample_projection.
Proof.
  split; [|split; reflexivity].
  apply (@model_validate_ignores_extra (scripted []) sample_record "latestVersion" (JInt 4)).
  cbn. intros Hin. repeat destruct Hin as [Hin|Hin]; try discriminate. exact Hin.
Defined.

(** X9: for each of the nine Optional fields, a record that has None
    under the key validates exactly as the record without the key. *)
Theorem model_validate_null_is_absent `{Externals} (m : gmap string json) k :
  In k optional_fields ->
  m !! k = Some JNull ->
  model_validate (JObj (delete k m)) = model_validate (JObj m).
Proof.
  intros Hk Hnull. cbn [model_validate].
  cbn in Hk.
  repeat (destruct Hk as [<-|Hk];
          [ rewrite (optional_delete_null _ _ _ Hnull),
              !required_delete_ne, !optional_delete_ne by discriminate;
            reflexivity | ]).
  destruct Hk.
Qed.

Lemma model_validate_null_is_absent_witness :
  sample_record !! "cifUrl" = Some JNull /\
  @model_validate (scripted []) (JObj (delete "cifUrl" sample_record)) =
    @model_validate (scripted []) (JObj sample_record) /\
  @model_validate (scripted []) (JObj sample_record) = Ok sample_projection /\
  @model_validate (scripted []) (JObj (delete "cifUrl" sample_record)) =
    Ok sample_projection.
Proof.
  split; [reflexivity|]. split; [|split; reflexivity].
  apply (@model_validate_null_is_absent (scripted []) sample_record "cifUrl").
  - cbn. tauto.
  - reflexivity.
Defined.

(** X10: the two identifiers are all a record needs.  A dict with a
    string entryId and a string uniprotAccession in which every Optional
    field is missing or None validates, and its projection has the two
    strings and no value for any Optional field. *)
Theorem model_validate_minimal `{Externals} (m : gmap string json) a b :
  m !! "entryId" = Some (JStr a) ->
  m !! "uniprotAccession" = Some (JStr b) ->
  (forall k, In k optional_fields -> m !! k = None \/ m !! k = Some JNull) ->
  model_validate (JObj m) =
    Ok {| entryId := a; uniprotAccession := b; uniprotId := None;
          organismScientificName := None; uniprotStart := None; uniprotEnd := None;
          modelCreatedDate := None; pdbUrl := None; cifUrl := None;
          paeImageUrl := None; pLDDT := None |}.
Proof.
  intros Ha Hb Hopt. cbn [model_validate].
  unfold required. rewrite Ha, Hb. cbn.
  rewrite !optional_absent by (apply Hopt; cbn; tauto).
  reflexivity.
Qed.

Lemma model_validate_minimal_witness :
  @model_validate (scripted [])
     (obj [("entryId", JStr "AF-P31645-F1"); ("uniprotAccession", JStr "P31645");
           ("pdbUrl", JNull)]) =
    Ok {| entryId := "AF-P31645-F1"; uniprotAccession := "P31645"; uniprotId := None;
          organismScientificName := None; uniprotStart := None; uniprotEnd := None;
          modelCreatedDate := None; pdbUrl := None; cifUrl := None;
          paeImageUrl := None; pLDDT := None |}.
Proof.
  apply (@model_validate_minimal (scripted [])
           (list_to_map [("entryId", JStr "AF-P31645-F1");
                         ("uniprotAccession", JStr "P31645"); ("pdbUrl", JNull)])).
  - reflexivity.
  - reflexivity.
  - intros k Hk. cbn in Hk.
    repeat (destruct Hk as [<-|Hk]; [first [left; reflexivity | right; reflexivity]|]).
    destruct Hk.
Defined.

(** ** The handlers when the upstream is down *)

Section Outage.
Context `{Externals}.

(** Three failures in a row: the 502 with the text of the third. *)
Lemma _get_three_failures url expect_json params w m3 :
  first_fail url params w 2 ->
  failure_text (upstream (served w + 2) url params) = Some m3 ->
  _get url expect_json params w =
    (Raise (HTTPException 502 ("Upstream error: " +:+ m3)),
     logged w 3 (failures_log url params 3)).
Proof.
  intros Hfail H3.
  assert (H1 : exists m1, failure_text (upstream (served w) url params) = Some m1).
  { specialize (Hfail 0%nat ltac:(lia)). rewrite Nat.add_0_r in Hfail.
    destruct (failure_text (upstream (served w) url params)); [eauto | congruence]. }
  assert (H2 : exists m2, failure_text (upstream (served w + 1) url params) = Some m2).
  { specialize (Hfail 1%nat ltac:(lia)).
    destruct (failure_text (upstream (served w + 1) url params)); [eauto | congruence]. }
  destruct H1 as [m1 H1]. destruct H2 as [m2 H2].
  unfold _get. rewrite range_retries.
  rewrite (_get_loop_failed _ _ _ _ _ _ _ _ H1).
  rewrite (_get_loop_failed _ _ _ _ _ _ (logged w 1 _) _ H2), logged_logged.
  rewrite (_get_loop_failed _ _ _ _ _ _ (logged w (1 + 1) _) _ H3), logged_logged.
  reflexivity.
Qed.

(** What the search handler does once the first stage went through. *)
Lemma search_by_gene_second_stage query w w1 accession gene_names protein_name organism :
  first_stage query w w1 accession gene_names protein_name organism ->
  search_by_gene query w =
    match _get (prediction_url (fmt accession)) true [] w1 with
    | (Ok data, w2) =>
        if truthy data
        then (model <~ py_index0 data ;;
              first_model_reply query accession gene_names protein_name organism model,
              w2)
        else (Raise (HTTPException 404
                       ("No AlphaFold prediction for accession "
                        +:+ fmt accession +:+ ".")), w2)
    | (Raise e, w2) => (Raise e, w2)
    end.
Proof.
  intros (u & results & hit & Hget & Hres & Htrue & Hhit & Hfields).
  unfold search_by_gene, bind, lift. rewrite Hget. cbn. rewrite Hres. cbn.
  rewrite Htrue. cbn. rewrite Hhit, Hfields.
  fold (prediction_url (fmt accession)).
  destruct (_get (prediction_url (fmt accession)) true [] w1) as [[data|e] w2];
    [|reflexivity].
  destruct (truthy data); cbn [negb]; [|reflexivity].
  destruct (py_index0 data) as [model|e]; cbn; [|reflexivity].
  unfold first_model_reply.
  destruct (py_get model "pdbUrl" JNull) as [pdb|]; cbn; [|reflexivity].
  destruct (py_get model "cifUrl" JNull) as [cif|]; cbn; [|reflexivity].
  destruct (py_get model "pLDDT" JNull) as [plddt|]; cbn; reflexivity.
Qed.

End Outage.

(** X11: when all three attempts on the prediction URL fail, the
    prediction handler raises the 502 of [_get], with the text of the third
    failure, after three calls and three sleeps. *)
Theorem get_prediction_upstream_down `{Externals} uniprot_id w m3 :
  first_fail (prediction_url uniprot_id) [] w 2 ->
  failure_text (upstream (served w + 2) (prediction_url uniprot_id) []) = Some m3 ->
  get_prediction uniprot_id w =
    (Raise (HTTPException 502 ("Upstream error: " +:+ m3)),
     logged w 3 (failures_log (prediction_url uniprot_id) [] 3)).
Proof.
  intros Hfail H3. unfold get_prediction, bind.
  fold (prediction_url uniprot_id).
  rewrite (_get_three_failures _ true _ _ _ Hfail H3). reflexivity.
Qed.

Lemma get_prediction_upstream_down_witness :
  @get_prediction (scripted three_failures) "P31645" w0 =
    (Raise (HTTPException 502 "Upstream error: gone"),
     logged w0 3 (failures_log (prediction_url "P31645") [] 3)).
Proof.
  apply (@get_prediction_upstream_down (scripted three_failures) "P31645" w0 "gone").
  - intros [|[|i]] Hi; [discriminate.. | lia].
  - reflexivity.
Defined.

(** X12: the prediction handler never answers with an empty sequence.
    When it returns, the upstream payload was a non-empty list, every item
    of it validated, and the answer lists the projections in that order. *)
Theorem get_prediction_ok_inv `{Externals} uniprot_id w out w' :
  get_prediction uniprot_id w = (Ok out, w') ->
  out <> [] /\
  exists items,
    _get (prediction_url uniprot_id) true [] w = (Ok (JArr items), w') /\
    Forall2 (fun item p => model_validate item = Ok p) items out.
Proof.
  unfold get_prediction, bind, lift. fold (prediction_url uniprot_id).
  destruct (_get (prediction_url uniprot_id) true [] w) as [[data|e] w1];
    [|discriminate].
  destruct data as [| | | | |items|]; try discriminate.
  destruct items as [|item items]; [discriminate|]. cbn [length Nat.eqb].
  destruct (validate_each (item :: items)) as [ps|e] eqn:Hv; [|discriminate].
  intros [= <- <-]. apply validate_each_ok in Hv.
  split; [inversion Hv; discriminate | eauto].
Qed.

Lemma get_prediction_ok_inv_witness :
  [ {| entryId := "AF-P31645-F1"; uniprotAccession := "P31645"; uniprotId := None;
       organismScientificName := None; uniprotStart := Some 1; uniprotEnd := None;
       modelCreatedDate := None;
       pdbUrl := Some (Url "https://alphafold.ebi.ac.uk/files/AF-P31645-F1.pdb");
       cifUrl := None; paeImageUrl := None; pLDDT := Some 81.5%float |} ] <> [] /\
  exists items,
    @_get (scripted [ok_json (JArr [sample_model])]) (prediction_url "P31645") true [] w0 =
      (Ok (JArr items), logged w0 1 [EvGet (prediction_url "P31645") []]) /\
    Forall2 (fun item p => @model_validate (scripted [ok_json (JArr [sample_model])]) item = Ok p)
      items
      [ {| entryId := "AF-P31645-F1"; uniprotAccession := "P31645"; uniprotId := None;
           organismScientificName := None; uniprotStart := Some 1; uniprotEnd := None;
           modelCreatedDate := None;
           pdbUrl := Some (Url "https://alphafold.ebi.ac.uk/files/AF-P31645-F1.pdb");
           cifUrl := None; paeImageUrl := None; pLDDT := Some 81.5%float |} ].
Proof.
  apply (@get_prediction_ok_inv (scripted [ok_json (JArr [sample_model])]) "P31645" w0).
  reflexivity.
Defined.

(** X13: whatever the upstream does and however the prediction handler
    ends, it has made between one and three calls of [client.get], all of
    them GETs of the prediction URL of its accession without parameters. *)
Theorem get_prediction_calls `{Externals} uniprot_id w :
  exists (n : nat) evs,
    snd (get_prediction uniprot_id w) = logged w n evs /\
    (1 <= n <= 3)%nat /\
    length (List.filter is_get evs) = n /\
    Forall (fun e => is_get e = true -> e = EvGet (prediction_url uniprot_id) []) evs.
Proof.
  destruct (_get_loop_bound (prediction_url uniprot_id) [] true
              (range (RETRIES + 1)) None w)
    as (n & evs & Hw & Hn & H1 & Hgets & _ & Hall).
  fold (_get (prediction_url uniprot_id) true []) in Hw.
  rewrite range_retries in Hn, H1. cbn in Hn.
  exists n, evs. repeat split; try assumption; [|apply H1; discriminate].
  rewrite <- Hw. unfold get_prediction, bind, lift.
  fold (prediction_url uniprot_id).
  destruct (_get (prediction_url uniprot_id) true [] w) as [[data|e] w1];
    [|reflexivity].
  destruct data as [| | | | |items|]; try reflexivity.
  destruct (length items =? 0)%nat; reflexivity.
Qed.

(** X14: when all three attempts on the knowledge base fail, the search
    handler raises the 502 of [_get] with the text of the third failure and
    has not called the structure-prediction endpoint. *)
Theorem search_by_gene_lookup_down `{Externals} query w m3 :
  first_fail UNIPROT_SEARCH_URL (search_params query) w 2 ->
  failure_text (upstream (served w + 2) UNIPROT_SEARCH_URL (search_params query)) = Some m3 ->
  search_by_gene query w =
    (Raise (HTTPException 502 ("Upstream error: " +:+ m3)),
     logged w 3 (failures_log UNIPROT_SEARCH_URL (search_params query) 3)) /\
  Forall (fun e => is_prediction_call e = false)
    (failures_log UNIPROT_SEARCH_URL (search_params query) 3).
Proof.
  intros Hfail H3. split.
  - unfold search_by_gene, bind.
    rewrite (_get_three_failures _ true _ _ _ Hfail H3). reflexivity.
  - unfold failures_log. cbn. repeat constructor.
Qed.

Lemma search_by_gene_lookup_down_witness :
  @search_by_gene (scripted three_failures) "SLC6A4" w0 =
    (Raise (HTTPException 502 "Upstream error: gone"),
     logged w0 3 (failures_log UNIPROT_SEARCH_URL (search_params "SLC6A4") 3)) /\
  Forall (fun e => is_prediction_call e = false)
    (failures_log UNIPROT_SEARCH_URL (search_params "SLC6A4") 3).
Proof.
  apply (@search_by_gene_lookup_down (scripted three_failures) "SLC6A4" w0 "gone").
  - intros [|[|i]] Hi; [discriminate.. | lia].
  - reflexivity.
Defined.

(** X15: when the knowledge base resolved the query but all three attempts
    on the prediction URL of the accession fail, the search handler raises
    the 502 of the second [_get], with the text of the third failure. *)
Theorem search_by_gene_prediction_down `{Externals} query w w1
    accession gene_names protein_name organism m3 :
  first_stage query w w1 accession gene_names protein_name organism ->
  first_fail (prediction_url (fmt accession)) [] w1 2 ->
  failure_text (upstream (served w1 + 2) (prediction_url (fmt accession)) []) = Some m3 ->
  search_by_gene query w =
    (Raise (HTTPException 502 ("Upstream error: " +:+ m3)),
     logged w1 3 (failures_log (prediction_url (fmt accession)) [] 3)).
Proof.
  intros Hstage Hfail H3.
  rewrite (search_by_gene_second_stage _ _ _ _ _ _ _ Hstage).
  rewrite (_get_three_failures _ true _ _ _ Hfail H3). reflexivity.
Qed.

Lemma search_by_gene_prediction_down_witness :
  @search_by_gene slc6a4_then_down "SLC6A4" w0 =
    (Raise (HTTPException 502 "Upstream error: gone"),
     logged (logged w0 1 [EvGet UNIPROT_SEARCH_URL (search_params "SLC6A4")]) 3
       (failures_log (prediction_url (@fmt slc6a4_then_down (JStr "P31645"))) [] 3)).
Proof.
  apply (@search_by_gene_prediction_down slc6a4_then_down "SLC6A4" w0
           (logged w0 1 [EvGet UNIPROT_SEARCH_URL (search_params "SLC6A4")])
           (JStr "P31645") (JStr "SLC6A4")
           (JStr "Sodium-dependent serotonin transporter") (JStr "Homo sapiens") "gone").
  - exists slc6a4_answer, (JArr [slc6a4_hit]), slc6a4_hit.
    repeat split; reflexivity.
  - intros [|[|i]] Hi; [discriminate.. | lia].
  - reflexivity.
Defined.

(** ** The search handler on shapes it does not expect *)

(** X16: when the knowledge base answers with JSON that is not a dict (a
    list, a string, a number, null), [uni.get] raises AttributeError; the
    handler lets it out and calls nothing further. *)
Theorem search_by_gene_payload_not_dict `{Externals} query w (uni : json) w1 :
  _get UNIPROT_SEARCH_URL true (search_params query) w = (Ok uni, w1) ->
  (forall u, uni <> JObj u) ->
  search_by_gene query w = (Raise AttributeError, w1).
Proof.
  intros Hget Hshape. unfold search_by_gene, bind, lift. rewrite Hget.
  destruct uni as [| | | | | |u]; try reflexivity. destruct (Hshape u). reflexivity.
Qed.

Lemma search_by_gene_payload_not_dict_witness :
  @search_by_gene (scripted [ok_json (JArr [])]) "SLC6A4" w0 =
    (Raise AttributeError,
     logged w0 1 [EvGet UNIPROT_SEARCH_URL (search_params "SLC6A4")]).
Proof.
  apply (@search_by_gene_payload_not_dict (scripted [ok_json (JArr [])]) "SLC6A4" w0
           (JArr [])).
  - reflexivity.
  - discriminate.
Defined.

(** X17: when the first hit is a dict without primaryAccession, the
    handler raises KeyError right after the knowledge-base lookup; the
    prediction endpoint is not called. *)
Theorem search_by_gene_no_accession `{Externals} query w (u h : gmap string json) more w1 :
  _get UNIPROT_SEARCH_URL true (search_params query) w = (Ok (JObj u), w1) ->
  u !! "results" = Some (JArr (JObj h :: more)) ->
  h !! "primaryAccession" = None ->
  search_by_gene query w = (Raise KeyError, w1).
Proof.
  intros Hget Hres Hacc. unfold search_by_gene, bind, lift. rewrite Hget.
  cbn. rewrite Hres. cbn. unfold extract_fields. cbn. rewrite Hacc. reflexivity.
Qed.

Lemma search_by_gene_no_accession_witness :
  @search_by_gene
     (scripted [ok_json (obj [("results", JArr [obj [("organism", obj [])]])])])
     "SLC6A4" w0 =
    (Raise KeyError, logged w0 1 [EvGet UNIPROT_SEARCH_URL (search_params "SLC6A4")]).
Proof.
  apply (@search_by_gene_no_accession
           (scripted [ok_json (obj [("results", JArr [obj [("organism", obj [])]])])])
           "SLC6A4" w0
           (list_to_map [("results", JArr [obj [("organism", obj [])]])])
           (list_to_map [("organism", obj [])]) []).
  - reflexivity.
  - reflexivity.
  - reflexivity.
Defined.

(** X18: a first hit whose genes list is present but empty makes the
    handler raise IndexError (the default of [.get] only stands in for a
    missing key), again before any call of the prediction endpoint. *)
Theorem search_by_gene_empty_genes `{Externals} query w (u h : gmap string json)
    more accession w1 :
  _get UNIPROT_SEARCH_URL true (search_params query) w = (Ok (JObj u), w1) ->
  u !! "results" = Some (JArr (JObj h :: more)) ->
  h !! "primaryAccession" = Some accession ->
  h !! "genes" = Some (JArr []) ->
  search_by_gene query w = (Raise IndexError, w1).
Proof.
  intros Hget Hres Hacc Hgenes. unfold search_by_gene, bind, lift. rewrite Hget.
  cbn. rewrite Hres. cbn. unfold extract_fields. cbn. rewrite Hacc, Hgenes. reflexivity.
Qed.

Lemma search_by_gene_empty_genes_witness :
  @search_by_gene
     (scripted [ok_json (obj [("results",
                               JArr [obj [("primaryAccession", JStr "P31645");
                                          ("genes", JArr [])]])])])
     "SLC6A4" w0 =
    (Raise IndexError, logged w0 1 [EvGet UNIPROT_SEARCH_URL (search_params "SLC6A4")]).
Proof.
  apply (@search_by_gene_empty_genes
           (scripted [ok_json (obj [("results",
                                     JArr [obj [("primaryAccession", JStr "P31645");
                                                ("genes", JArr [])]])])])
           "SLC6A4" w0
           (list_to_map [("results", JArr [obj [("primaryAccession", JStr "P31645");
                                                ("genes", JArr [])]])])
           (list_to_map [("primaryAccession", JStr "P31645"); ("genes", JArr [])])
           [] (JStr "P31645")).
  - reflexivity.
  - reflexivity.
  - reflexivity.
  - reflexivity.
Defined.

(** X19: only the first gene of a hit is read: whatever follows it in the
    genes list, the four values taken from the hit are the same. *)
Theorem extract_fields_first_gene (h : gmap string json) gene others :
  extract_fields (JObj (<["genes" := JArr (gene :: others)]> h)) =
  extract_fields (JObj (<["genes" := JArr [gene]]> h)).
Proof.
  unfold extract_fields. cbn.
  rewrite !lookup_insert_eq, !lookup_insert_ne by discriminate. reflexivity.
Qed.

(** X20: when the prediction service answers the resolved accession with
    a non-empty dict instead of a list, the search handler does not raise
    its 404: [data[0]] raises KeyError. *)
Theorem search_by_gene_prediction_dict `{Externals} query w w1
    accession gene_names protein_name organism (m : gmap string json) w2 :
  first_stage query w w1 accession gene_names protein_name organism ->
  _get (prediction_url (fmt accession)) true [] w1 = (Ok (JObj m), w2) ->
  m <> ∅ ->
  search_by_gene query w = (Raise KeyError, w2).
Proof.
  intros Hstage Hpred Hne.
  rewrite (search_by_gene_second_stage _ _ _ _ _ _ _ Hstage), Hpred.
  cbn. destruct (size m) eqn:Hsize; [|reflexivity].
  apply map_size_empty_iff in Hsize. contradiction.
Qed.

Lemma search_by_gene_prediction_dict_witness :
  @search_by_gene slc6a4_then_error "SLC6A4" w0 =
    (Raise KeyError,
     logged w0 2 [EvGet UNIPROT_SEARCH_URL (search_params "SLC6A4");
                  EvGet (prediction_url "P31645") []]).
Proof.
  apply (@search_by_gene_prediction_dict slc6a4_then_error "SLC6A4" w0
           (logged w0 1 [EvGet UNIPROT_SEARCH_URL (search_params "SLC6A4")])
           (JStr "P31645") (JStr "SLC6A4")
           (JStr "Sodium-dependent serotonin transporter") (JStr "Homo sapiens")
           (list_to_map [("error", JStr "not found")])).
  - exists slc6a4_answer, (JArr [slc6a4_hit]), slc6a4_hit.
    repeat split; reflexivity.
  - reflexivity.
  - exact (insert_non_empty _ _ _).
Defined.

(** ** The calls of the search handler *)

Section SearchCalls.
Context `{Externals}.

(** [_get] starts with a GET of its URL. *)
Lemma _get_head url expect_json params w :
  exists (n : nat) evs,
    snd (_get url expect_json params w) = logged w (1 + n) (EvGet url params :: evs) /\
    (n <= 2)%nat /\
    length (List.filter is_get evs) = n /\
    Forall (fun e => is_get e = true -> e = EvGet url params) evs.
Proof.
  unfold _get. rewrite range_retries.
  destruct (failure_text (upstream (served w) url params)) as [msg|] eqn:Hf.
  - rewrite (_get_loop_failed _ _ _ _ _ _ _ _ Hf).
    destruct (_get_loop_bound url params expect_json [1; 2] (Some msg)
                (logged w 1 [EvGet url params; EvSleep (backoff 0)]))
      as (n & evs & -> & Hn & _ & Hgets & _ & Hall).
    exists n, (EvSleep (backoff 0) :: evs). rewrite logged_logged.
    repeat split; [exact Hn | exact Hgets |].
    constructor; [discriminate | exact Hall].
  - rewrite (_get_loop_settled _ _ _ _ _ _ _ Hf).
    exists 0%nat, []. repeat split; [lia | constructor].
Qed.

(** The handler changes the world through its two [_get] only. *)
Lemma search_by_gene_world query w :
  let w1 := snd (_get UNIPROT_SEARCH_URL true (search_params query) w) in
  snd (search_by_gene query w) = w1 \/
  exists accession,
    snd (search_by_gene query w) =
    snd (_get (prediction_url (fmt accession)) true [] w1).
Proof.
  cbv zeta. unfold search_by_gene, bind, lift.
  destruct (_get UNIPROT_SEARCH_URL true (search_params query) w) as [[uni|e] w1];
    [|left; reflexivity].
  destruct (py_get uni "results" JNull) as [found|e]; [|left; reflexivity].
  destruct (truthy found); cbn [negb]; [|left; reflexivity].
  destruct (py_getitem uni "results") as [results|e]; [|left; reflexivity].
  destruct (py_index0 results) as [hit|e]; [|left; reflexivity].
  destruct (extract_fields hit) as [[[[accession gene_names] protein_name] organism]|e];
    [|left; reflexivity].
  right. exists accession. fold (prediction_url (fmt accession)). cbn [snd].
  destruct (_get (prediction_url (fmt accession)) true [] w1) as [[data|e] w2];
    [|reflexivity].
  destruct (truthy data); cbn [negb]; [|reflexivity].
  destruct (py_index0 data) as [model|e]; [|reflexivity].
  destruct (py_get model "pdbUrl" JNull) as [pdb|e]; [|reflexivity].
  destruct (py_get model "cifUrl" JNull) as [cif|e]; [|reflexivity].
  destruct (py_get model "pLDDT" JNull) as [plddt|e]; reflexivity.
Qed.

End SearchCalls.

(** X21: whatever the two upstreams do and however the search handler
    ends, the first thing it did is the GET of the knowledge-base search URL
    with the query as given, the four fields, format json and size 1; it
    made at most six calls of [client.get] in all, and every later one is a
    retry of that GET or a GET of a prediction URL without parameters. *)
Theorem search_by_gene_calls `{Externals} query w :
  exists (n : nat) evs,
    snd (search_by_gene query w) =
      logged w (1 + n) (EvGet UNIPROT_SEARCH_URL (search_params query) :: evs) /\
    (n <= 5)%nat /\
    length (List.filter is_get evs) = n /\
    Forall (fun e => is_get e = true ->
                     e = EvGet UNIPROT_SEARCH_URL (search_params query) \/
                     exists accession, e = EvGet (prediction_url accession) []) evs.
Proof.
  destruct (_get_head UNIPROT_SEARCH_URL true (search_params query) w)
    as (n1 & evs1 & Hw1 & Hn1 & Hgets1 & Hall1).
  assert (Hall1' : Forall (fun e => is_get e = true ->
                     e = EvGet UNIPROT_SEARCH_URL (search_params query) \/
                     exists accession, e = EvGet (prediction_url accession) []) evs1).
  { eapply Forall_impl; [exact Hall1|]. intros e He Hg. left. exact (He Hg). }
  destruct (search_by_gene_world query w) as [Hw | [accession Hw]]; rewrite Hw.
  - exists n1, evs1. repeat split; [exact Hw1 | lia | exact Hgets1 | exact Hall1'].
  - destruct (_get_head (prediction_url (fmt accession)) true []
                (snd (_get UNIPROT_SEARCH_URL true (search_params query) w)))
      as (n2 & evs2 & Hw2 & Hn2 & Hgets2 & Hall2).
    rewrite Hw2, Hw1, logged_logged.
    exists (n1 + (1 + n2))%nat, (evs1 ++ EvGet (prediction_url (fmt accession)) [] :: evs2).
    split; [reflexivity|]. split; [|split].
    + lia.
    + rewrite List.filter_app, length_app. cbn. rewrite Hgets1, Hgets2. reflexivity.
    + apply Forall_app. split; [exact Hall1'|].
      constructor; [intros _; right; eauto|].
      eapply Forall_impl; [exact Hall2|]. intros e He Hg. right. eauto.
Qed.

(** X22: in its second stage the search handler tests the payload for
    truth, not for being a list: any falsy payload of the prediction service
    (an empty list, but also null, an empty dict, an empty string, zero or
    false) is answered with the 404 that names the accession. *)
Theorem search_by_gene_prediction_falsy `{Externals} query w w1
    accession gene_names protein_name organism (data : json) w2 :
  first_stage query w w1 accession gene_names protein_name organism ->
  _get (prediction_url (fmt accession)) true [] w1 = (Ok data, w2) ->
  truthy data = false ->
  search_by_gene query w =
    (Raise (HTTPException 404
              ("No AlphaFold prediction for accession " +:+ fmt accession +:+ ".")),
     w2).
Proof.
  intros Hstage Hpred Hfalsy.
  rewrite (search_by_gene_second_stage _ _ _ _ _ _ _ Hstage), Hpred, Hfalsy.
  reflexivity.
Qed.

Lemma search_by_gene_prediction_falsy_witness :
  @search_by_gene slc6a4_then_null "SLC6A4" w0 =
    (Raise (HTTPException 404
              ("No AlphaFold prediction for accession "
               +:+ @fmt slc6a4_then_null (JStr "P31645") +:+ ".")),
     logged w0 2 [EvGet UNIPROT_SEARCH_URL (search_params "SLC6A4");
                  EvGet (prediction_url "P31645") []]).
Proof.
  apply (@search_by_gene_prediction_falsy slc6a4_then_null "SLC6A4" w0
           (logged w0 1 [EvGet UNIPROT_SEARCH_URL (search_params "SLC6A4")])
           (JStr "P31645") (JStr "SLC6A4")
           (JStr "Sodium-dependent serotonin transporter") (JStr "Homo sapiens") JNull).
  - exists slc6a4_answer, (JArr [slc6a4_hit]), slc6a4_hit.
    repeat split; reflexivity.
  - reflexivity.
  - reflexivity.
Defined.

(** ** Both routes: how a handler can end *)

Section Endings.
Context `{Externals}.







End Endings.


